(** * Retail banking ledger: a shallow embedding of [accounts_db.py]

    The module keeps two SQLite tables, [accounts] (primary key
    [account_id]) and [transactions] (an AUTOINCREMENT key, rows are only
    ever inserted).  Every function opens a connection of its own through
    [get_db], runs its statements on it, commits, and closes it.

    Conventions of the embedding:
    - the database file is a value of type [database]; a function of the
      module takes the file before the call and returns its result with the
      file after the call;
    - a [connection] carries the uncommitted working copy of the statements
      run on it; [commit] publishes it to the file, [rollback] and closing
      the connection drop it;
    - [datetime.now()] and [uuid.uuid4()] are inputs of the functions that
      call them, already formatted the way the code formats them;
    - money columns ([REAL] in the schema) are exact integers (minor
      units) in the main definitions, which serve the properties that rest
      on single operations and on comparisons; module [doubles] repeats the
      balance operations on IEEE doubles, for the property that depends on
      how sums and differences round;
    - storage faults ([sqlite3.OperationalError] and the like) are outside
      the model; the one exception modelled is the primary-key violation of
      [create_account]. *)

From Stdlib Require Import ZArith.
From Stdlib Require Import Floats.PrimFloat.
From stdpp Require Import gmap strings list sorting pretty.

Local Open Scope string_scope.
Local Open Scope list_scope.
Local Open Scope Z_scope.

(** ** Tables *)

(** A row of [accounts], without its key. *)
Record account := Account {
  holder_name : string;
  account_type : string;
  balance : Z;
  status : string;
  created_at : string
}.

(** A row of [transactions]. *)
Record transaction := Transaction {
  tx_id : nat;
  tx_account_id : string;
  tx_type : string;
  amount : Z;
  description : string;
  balance_after : Z;
  timestamp : string
}.

(** The database file: [accounts] keyed by [account_id], [transactions] in
    insertion order (ascending [id]). *)
Record database := Database {
  accounts : gmap string account;
  transactions : list transaction
}.

Definition empty_db : database := Database ∅ [].

(** ** Connections *)

Record connection := Connection { pending : option database }.

(** [sqlite3.connect(DATABASE_NAME)]: a new connection, nothing pending. *)
Definition connect : connection := Connection None.

(** What a statement run on the connection reads. *)
Definition view (conn : connection) (disk : database) : database :=
  default disk (pending conn).

(** A data-modifying statement: it opens a transaction when none is open
    and changes the connection's working copy only. *)
Definition execute (conn : connection) (disk : database)
    (stmt : database → database) : connection :=
  Connection (Some (stmt (view conn disk))).

(** [conn.execute('BEGIN TRANSACTION')]: a deferred transaction; it reads
    and locks nothing until a statement is run on the same connection. *)
Definition begin_transaction (conn : connection) : connection := conn.

Definition commit (conn : connection) (disk : database) : connection * database :=
  (Connection None, view conn disk).

Definition rollback (conn : connection) : connection := Connection None.

(** [conn.close()] in the [finally] of [get_db]: what is still pending on
    the connection is lost, the file stays as it is. *)
Definition close (conn : connection) (disk : database) : database := disk.

(** ** Statements *)

(** [SELECT balance FROM accounts WHERE account_id = ?] then [fetchone()] *)
Definition select_balance (account_id : string) (d : database) : option Z :=
  balance <$> accounts d !! account_id.

(** [... WHERE account_id = ? AND status = "active"] *)
Definition select_active_balance (account_id : string) (d : database) : option Z :=
  match accounts d !! account_id with
  | Some a => if decide (status a = "active") then Some (balance a) else None
  | None => None
  end.

(** [... WHERE account_id = ? AND status = "active" AND balance >= ?] *)
Definition select_sufficient_balance (account_id : string) (amt : Z)
    (d : database) : option Z :=
  match accounts d !! account_id with
  | Some a =>
      if decide (status a = "active") then
        if decide (amt ≤ balance a) then Some (balance a) else None
      else None
  | None => None
  end.

(** [UPDATE accounts SET ... WHERE account_id = ?] *)
Definition update_account (set : account → account) (account_id : string)
    (d : database) : database :=
  Database (alter set account_id (accounts d)) (transactions d).

(** [cur.rowcount] after that UPDATE: the rows the WHERE clause matched. *)
Definition update_rowcount (account_id : string) (d : database) : nat :=
  match accounts d !! account_id with Some _ => 1%nat | None => 0%nat end.

Definition set_balance (b : Z) (a : account) : account :=
  Account (holder_name a) (account_type a) b (status a) (created_at a).

Definition set_status (s : string) (a : account) : account :=
  Account (holder_name a) (account_type a) (balance a) s (created_at a).

Definition set_holder_name (n : string) (a : account) : account :=
  Account n (account_type a) (balance a) (status a) (created_at a).

Definition set_account_type (t : string) (a : account) : account :=
  Account (holder_name a) t (balance a) (status a) (created_at a).

(** [INSERT INTO transactions (account_id, type, amount, description,
    balance_after, timestamp) VALUES (...)]: the new row takes the next
    [id]. *)
Definition insert_transaction (account_id type : string) (amt : Z)
    (descr : string) (bal_after : Z) (ts : string) (d : database) : database :=
  Database (accounts d)
    (transactions d ++
     [Transaction (S (length (transactions d))) account_id type amt descr bal_after ts]).

(** [INSERT INTO accounts (account_id, holder_name, account_type, balance,
    created_at) VALUES (...)]; [status] takes its default ['active'].  The
    statement is run only on a free key: see [create_account]. *)
Definition insert_account (account_id holder type : string) (bal : Z)
    (created : string) (d : database) : database :=
  Database (<[account_id := Account holder type bal "active" created]> (accounts d))
    (transactions d).

(** ** The functions of [accounts_db.py] *)

(** [create_account]: [uid] is [str(uuid.uuid4())[:8]], [today] and [now]
    the two formatted readings of the clock.  [None] is the
    [sqlite3.IntegrityError] the first INSERT raises on a key already in
    the table; the connection is then closed without a commit. *)
Definition create_account (holder_name account_type : string)
    (initial_deposit : Z) (uid today now : string) (disk : database)
    : option string * database :=
  let account_id := "acc" +:+ uid in
  let conn := connect in
  match accounts (view conn disk) !! account_id with
  | Some _ => (None, close conn disk)
  | None =>
      let conn := execute conn disk
        (insert_account account_id holder_name account_type initial_deposit today) in
      let conn :=
        if decide (0 < initial_deposit) then
          execute conn disk
            (insert_transaction account_id "credit" initial_deposit
               "Initial deposit" initial_deposit now)
        else conn in
      let '(conn, disk) := commit conn disk in
      (Some account_id, close conn disk)
  end.

Definition close_account (account_id : string) (disk : database)
    : bool * database :=
  let conn := connect in
  match select_balance account_id (view conn disk) with
  | None => (false, close conn disk)
  | Some b =>
      if decide (b ≠ 0) then (false, close conn disk)
      else
        let rowcount := update_rowcount account_id (view conn disk) in
        let conn := execute conn disk (update_account (set_status "closed") account_id) in
        let '(conn, disk) := commit conn disk in
        (bool_decide (0 < rowcount)%nat, close conn disk)
  end.

Definition get_balance (account_id : string) (disk : database) : Z :=
  let conn := connect in
  match select_balance account_id (view conn disk) with
  | Some b => b
  | None => 0
  end.

Definition deposit (account_id : string) (amt : Z) (descr now : string)
    (disk : database) : bool * database :=
  let conn := connect in
  match select_active_balance account_id (view conn disk) with
  | None => (false, close conn disk)
  | Some b =>
      let new_balance := b + amt in
      let conn := execute conn disk (update_account (set_balance new_balance) account_id) in
      let conn := execute conn disk
        (insert_transaction account_id "credit" amt descr new_balance now) in
      let '(conn, disk) := commit conn disk in
      (true, close conn disk)
  end.

Definition withdraw (account_id : string) (amt : Z) (descr now : string)
    (disk : database) : bool * database :=
  let conn := connect in
  match select_sufficient_balance account_id amt (view conn disk) with
  | None => (false, close conn disk)
  | Some b =>
      let new_balance := b - amt in
      let conn := execute conn disk (update_account (set_balance new_balance) account_id) in
      let conn := execute conn disk
        (insert_transaction account_id "debit" amt descr new_balance now) in
      let '(conn, disk) := commit conn disk in
      (true, close conn disk)
  end.

(** [transfer]: [now1] and [now2] are the clock readings of the two legs.
    [withdraw] and [deposit] each open, commit and close a connection of
    their own; the connection opened here runs BEGIN and then only
    [rollback] or [commit]. *)
Definition transfer (from_acc to_acc : string) (amt : Z) (now1 now2 : string)
    (disk : database) : bool * database :=
  let conn := connect in
  let conn := begin_transaction conn in
  let '(ok, disk) := withdraw from_acc amt ("Transfer to " +:+ to_acc) now1 disk in
  if negb ok then
    let conn := rollback conn in
    (false, close conn disk)
  else
    let '(ok, disk) := deposit to_acc amt ("Transfer from " +:+ from_acc) now2 disk in
    if negb ok then
      let conn := rollback conn in
      (false, close conn disk)
    else
      let '(conn, disk) := commit conn disk in
      (true, close conn disk).

(** Python truthiness of an optional string argument: [None] and [""] are
    both false. *)
Definition truthy (o : option string) : bool :=
  match o with
  | Some s => negb (String.eqb s "")
  | None => false
  end.

(** [update_account_details]: [updates] is the SET clause, one assignment
    per truthy argument. *)
Definition update_account_details (account_id : string)
    (new_holder_name new_account_type : option string) (disk : database)
    : bool * database :=
  let conn := connect in
  let updates :=
    (if truthy new_holder_name then [set_holder_name (default "" new_holder_name)] else []) ++
    (if truthy new_account_type then [set_account_type (default "" new_account_type)] else []) in
  match updates with
  | [] => (true, close conn disk)
  | _ =>
      let set := λ a, foldl (λ acc f, f acc) a updates in
      let rowcount := update_rowcount account_id (view conn disk) in
      let conn := execute conn disk (update_account set account_id) in
      let '(conn, disk) := commit conn disk in
      (bool_decide (0 < rowcount)%nat, close conn disk)
  end.

(** A row of [get_user_accounts]. *)
Record account_summary := AccountSummary {
  sum_holder_name : string;
  sum_account_type : string;
  sum_balance : Z;
  sum_status : string
}.

Definition get_user_accounts (disk : database) : gmap string account_summary :=
  (λ a, AccountSummary (holder_name a) (account_type a) (balance a) (status a))
    <$> accounts (view connect disk).

(** ** History queries *)

(** A dict of the list [get_history] returns. *)
Record history_row := HistoryRow {
  row_timestamp : string;
  row_type : string;
  row_amount : Z;
  row_description : string;
  row_balance_after : Z
}.

(** The five columns of the SELECT. *)
Definition history_row_of (t : transaction) : history_row :=
  HistoryRow (timestamp t) (tx_type t) (amount t) (description t) (balance_after t).

(** [ORDER BY timestamp DESC]: TEXT values compare byte by byte. *)
Definition newer_first : relation transaction :=
  λ t1 t2, String.le (timestamp t2) (timestamp t1).

Global Instance newer_first_dec : RelDecision newer_first.
Proof. intros t1 t2. unfold newer_first. apply _. Defined.

(** The sort of the ORDER BY clause: a row goes in front of the rows that
    are not newer than it, so that rows with equal timestamps stay in the
    order of the table. *)
Fixpoint insert_newer_first (t : transaction) (l : list transaction)
    : list transaction :=
  match l with
  | [] => [t]
  | x :: l' =>
      if decide (newer_first t x) then t :: x :: l'
      else x :: insert_newer_first t l'
  end.

Definition order_by_timestamp_desc (l : list transaction) : list transaction :=
  foldr insert_newer_first [] l.

Section history.
(** SQLite's [date()] function; [None] is NULL (a text that is no date). *)
Variable date : string → option string.

(** [date(timestamp) BETWEEN date(?) AND date(?)]: a comparison with
    NULL is not true, so the row is left out. *)
Definition date_between (ts lo hi : string) : bool :=
  match date ts, date lo, date hi with
  | Some d, Some a, Some b =>
      bool_decide (String.le a d) && bool_decide (String.le d b)
  | _, _, _ => false
  end.

(** The WHERE clause: the date condition is appended only when both
    arguments are truthy. *)
Definition history_where (account_id : string)
    (start_date end_date : option string) (t : transaction) : bool :=
  bool_decide (tx_account_id t = account_id) &&
  (if truthy start_date && truthy end_date
   then date_between (timestamp t) (default "" start_date) (default "" end_date)
   else true).

(** [get_history]: SQL leaves the order of rows with equal timestamps open;
    they are returned here in the order of the table. *)
Definition get_history (account_id : string)
    (start_date end_date : option string) (disk : database) : list history_row :=
  let conn := connect in
  let rows :=
    order_by_timestamp_desc
      (filter (λ t, history_where account_id start_date end_date t)
         (transactions (view conn disk))) in
  history_row_of <$> rows.
End history.

(** [date()] on valid dates in the two formats the module exchanges,
    [YYYY-MM-DD] and [YYYY-MM-DD HH:MM:SS]: the first ten characters.  It
    stands in for SQLite's function in the examples only, which use valid
    dates; on other texts of these two lengths SQLite answers NULL. *)
Definition iso_date (s : string) : option string :=
  if decide (String.length s = 10%nat ∨ String.length s = 19%nat)
  then Some (String.substring 0 10 s) else None.

(** ** Sequences of operations *)

Inductive operation :=
  | Deposit (account_id : string) (amt : Z) (descr now : string)
  | Withdraw (account_id : string) (amt : Z) (descr now : string).

Definition run_operation (o : operation) (disk : database) : bool * database :=
  match o with
  | Deposit a amt descr now => deposit a amt descr now disk
  | Withdraw a amt descr now => withdraw a amt descr now disk
  end.

Definition run_operations (ops : list operation) (disk : database) : database :=
  foldl (λ d o, (run_operation o d).2) disk ops.

(** The transactions of one account, oldest first, and the most recent of
    them (the one inserted last, with the largest [id]). *)
Definition transactions_of (account_id : string) (disk : database) : list transaction :=
  filter (λ t, tx_account_id t = account_id) (transactions disk).

Definition latest_transaction (account_id : string) (disk : database)
    : option transaction :=
  last (transactions_of account_id disk).

(** ** Example databases *)

Definition alice : account := Account "Alice" "savings" 100 "active" "2024-01-01".
Definition bob_closed : account := Account "Bob" "checking" 0 "closed" "2024-01-01".

Definition db_alice : database := Database {[ "accA" := alice ]} [].
Definition db_alice_bob : database :=
  Database (<[ "accB" := bob_closed ]> {[ "accA" := alice ]}) [].

Definition carol : account := Account "Carol" "checking" 20 "active" "2024-01-03".
Definition erin : account := Account "Erin" "savings" 0 "active" "2024-01-04".

Definition db_alice_erin : database :=
  Database (<[ "accE" := erin ]> {[ "accA" := alice ]}) [].

Definition db_alice_carol : database :=
  Database (<[ "accC" := carol ]> {[ "accA" := alice ]}) [].

(** ** Predicates the properties are stated with *)

(** Every stored balance is at least zero. *)
Definition nonneg_balances (d : database) : Prop :=
  map_Forall (λ _ a, 0 ≤ balance a) (accounts d).

(** No deposit of the sequence has a negative amount. *)
Definition deposits_nonneg (ops : list operation) : Prop :=
  Forall (λ o, match o with
               | Deposit _ amt _ _ => 0 ≤ amt
               | Withdraw _ _ _ _ => True
               end) ops.

Definition sample_operations : list operation :=
  [ Deposit "accA" 50 "bonus" "2024-01-02 10:00:00";
    Withdraw "accA" 1000 "oops" "2024-01-02 10:00:01";
    Withdraw "accA" 150 "rent" "2024-01-02 10:00:02" ].

(** The most recent transaction of the account records the account's
    current balance. *)
Definition ledger_matches (account_id : string) (d : database) : Prop :=
  balance_after <$> latest_transaction account_id d = Some (get_balance account_id d).

(** The row [update_account_details] writes in place of [a]. *)
Definition updated_details (hn ty : option string) (a : account) : account :=
  Account (if truthy hn then default "" hn else holder_name a)
    (if truthy ty then default "" ty else account_type a)
    (balance a) (status a) (created_at a).

(** Most recent first, on the rows returned. *)
Definition row_newer_first : relation history_row :=
  λ r1 r2, String.le (row_timestamp r2) (row_timestamp r1).

(** The date of the timestamp [ts] lies in the inclusive range from the date
    of [lo] to the date of [hi]. *)
Definition in_date_range (date : string → option string) (lo hi ts : string) : Prop :=
  match date ts, date lo, date hi with
  | Some d, Some a, Some b => String.le a d ∧ String.le d b
  | _, _, _ => False
  end.

Global Instance in_date_range_dec date lo hi ts : Decision (in_date_range date lo hi ts).
Proof.
  unfold in_date_range. destruct (date ts), (date lo), (date hi); apply _.
Defined.

Definition db_history : database :=
  Database {[ "accA" := alice ]}
    [ Transaction 1 "accA" "credit" 100 "Initial deposit" 100 "2024-01-01 09:00:00";
      Transaction 2 "accA" "credit" 50 "bonus" 150 "2024-01-05 12:00:00";
      Transaction 3 "accC" "credit" 20 "Initial deposit" 20 "2024-01-06 08:00:00";
      Transaction 4 "accA" "debit" 50 "rent" 100 "2024-02-01 10:30:00" ].

(** The scenarios of the specification, step by step. *)
Definition scenario_open_alice : option string * database :=
  create_account "Alice" "savings" 100 "0000000a" "2024-01-01" "2024-01-01 09:00:00"
    empty_db.

Definition scenario_deposit : bool * database :=
  deposit "acc0000000a" 50 "bonus" "2024-01-01 09:01:00" scenario_open_alice.2.

Definition scenario_overdraft : bool * database :=
  withdraw "acc0000000a" 1000 "oops" "2024-01-01 09:02:00" scenario_deposit.2.

Definition scenario_open_bob : option string * database :=
  create_account "Bob" "checking" 0 "0000000b" "2024-01-01" "2024-01-01 09:03:00"
    scenario_overdraft.2.

Definition scenario_transfer : bool * database :=
  transfer "acc0000000a" "acc0000000b" 150 "2024-01-01 09:04:00" "2024-01-01 09:04:00"
    scenario_open_bob.2.

Definition scenario_close : bool * database :=
  close_account "acc0000000a" scenario_transfer.2.

Definition scenario_deposit_closed : bool * database :=
  deposit "acc0000000a" 1 "x" "2024-01-01 09:06:00" scenario_close.2.

Definition scenario_transfer_closed : bool * database :=
  transfer "acc0000000a" "acc0000000b" 10 "2024-01-01 09:07:00" "2024-01-01 09:07:00"
    scenario_deposit_closed.2.

(** ** Sequences of calls to the module *)

(** The calls that write to the file.  The readers ([get_balance],
    [get_history], [get_user_accounts]) return no file: they run no
    data-modifying statement. *)
Inductive call :=
  | CreateAccount (holder type : string) (init : Z) (uid today now : string)
  | CloseAccount (account_id : string)
  | DepositCall (account_id : string) (amt : Z) (descr now : string)
  | WithdrawCall (account_id : string) (amt : Z) (descr now : string)
  | TransferCall (from_acc to_acc : string) (amt : Z) (now1 now2 : string)
  | UpdateDetails (account_id : string) (new_holder_name new_account_type : option string).

(** The file after one call, whatever the call returned or raised. *)
Definition run_call (c : call) (disk : database) : database :=
  match c with
  | CreateAccount holder type init uid today now =>
      (create_account holder type init uid today now disk).2
  | CloseAccount a => (close_account a disk).2
  | DepositCall a amt descr now => (deposit a amt descr now disk).2
  | WithdrawCall a amt descr now => (withdraw a amt descr now disk).2
  | TransferCall f t amt now1 now2 => (transfer f t amt now1 now2 disk).2
  | UpdateDetails a hn ty => (update_account_details a hn ty disk).2
  end.

Definition run_calls (cs : list call) (disk : database) : database :=
  foldl (λ d c, run_call c d) disk cs.

(** [Pinit] holds of the initial deposit of a [create_account] call and
    [Pcredit] of the amount of a [deposit] or [transfer] call. *)
Definition call_ok (Pinit Pcredit : Z → Prop) (c : call) : Prop :=
  match c with
  | CreateAccount _ _ init _ _ _ => Pinit init
  | DepositCall _ amt _ _ => Pcredit amt
  | TransferCall _ _ amt _ _ => Pcredit amt
  | _ => True
  end.

Definition any_amount : Z → Prop := λ _, True.
Definition nonneg_amount : Z → Prop := λ z, 0 ≤ z.

(** No account is opened with a negative initial deposit, and no deposit
    and no transfer carries a negative amount. *)
Definition credits_nonneg (cs : list call) : Prop :=
  Forall (call_ok nonneg_amount nonneg_amount) cs.

(** One write as the file sees it: every call is none, one or two of
    these (see [run_call_steps]). *)
Inductive step (Pinit Pcredit : Z → Prop) : database → database → Prop :=
  | step_credit id a amt descr now d :
      accounts d !! id = Some a → status a = "active" → Pcredit amt →
      step Pinit Pcredit d
        (Database (alter (set_balance (balance a + amt)) id (accounts d))
           (transactions d ++
            [Transaction (S (length (transactions d))) id "credit" amt descr
               (balance a + amt) now]))
  | step_debit id a amt descr now d :
      accounts d !! id = Some a → status a = "active" → amt ≤ balance a →
      step Pinit Pcredit d
        (Database (alter (set_balance (balance a - amt)) id (accounts d))
           (transactions d ++
            [Transaction (S (length (transactions d))) id "debit" amt descr
               (balance a - amt) now]))
  | step_close id a d :
      accounts d !! id = Some a → balance a = 0 →
      step Pinit Pcredit d
        (Database (alter (set_status "closed") id (accounts d)) (transactions d))
  | step_update id hn ty d :
      step Pinit Pcredit d
        (Database (alter (updated_details hn ty) id (accounts d)) (transactions d))
  | step_create_empty id holder type init today d :
      accounts d !! id = None → ¬ 0 < init → Pinit init →
      step Pinit Pcredit d
        (Database (<[id := Account holder type init "active" today]> (accounts d))
           (transactions d))
  | step_create_funded id holder type init today now d :
      accounts d !! id = None → 0 < init → Pinit init →
      step Pinit Pcredit d
        (Database (<[id := Account holder type init "active" today]> (accounts d))
           (transactions d ++
            [Transaction (S (length (transactions d))) id "credit" init
               "Initial deposit" init now])).

(** ** Invariants of the file *)

(** The [id] column counts the rows: the row at position [i] has id [i+1]. *)
Definition ids_consecutive (d : database) : Prop :=
  ∀ i t, transactions d !! i = Some t → tx_id t = S i.

(** Every transaction belongs to an account of the table. *)
Definition ledger_references_accounts (d : database) : Prop :=
  ∀ t, t ∈ transactions d → is_Some (accounts d !! tx_account_id t).

(** The status column holds ['active'] or ['closed']. *)
Definition statuses_known (d : database) : Prop :=
  map_Forall (λ _ a, status a = "active" ∨ status a = "closed") (accounts d).

(** A closed account has balance zero. *)
Definition closed_have_zero_balance (d : database) : Prop :=
  map_Forall (λ _ a, status a = "closed" → balance a = 0) (accounts d).

(** Every account with a transaction has, in its most recent one, the
    balance it now has. *)
Definition ledger_consistent (d : database) : Prop :=
  ∀ id, transactions_of id d ≠ [] → ledger_matches id d.

(** An account stays in the table with its creation date, and once closed
    it keeps its status and its balance. *)
Definition account_kept (a a' : account) : Prop :=
  created_at a' = created_at a ∧
  (status a = "closed" → status a' = "closed" ∧ balance a' = balance a).

(** The account named by the call as the owner of a row it may write. *)
Definition call_touches (account_id : string) (c : call) : Prop :=
  match c with
  | CreateAccount _ _ _ uid _ _ => account_id = "acc" +:+ uid
  | DepositCall a _ _ _ => account_id = a
  | WithdrawCall a _ _ _ => account_id = a
  | TransferCall f t _ _ _ => account_id = f ∨ account_id = t
  | CloseAccount _ => False
  | UpdateDetails _ _ _ => False
  end.

(** A sequence of calls touching every function that writes. *)
Definition sample_calls : list call :=
  [ CreateAccount "Alice" "savings" 100 "0000000a" "2024-01-01" "2024-01-01 09:00:00";
    CreateAccount "Bob" "checking" 0 "0000000b" "2024-01-01" "2024-01-01 09:01:00";
    DepositCall "acc0000000a" 50 "bonus" "2024-01-01 09:02:00";
    WithdrawCall "acc0000000a" 1000 "oops" "2024-01-01 09:03:00";
    TransferCall "acc0000000a" "acc0000000b" 150 "2024-01-01 09:04:00" "2024-01-01 09:04:01";
    UpdateDetails "acc0000000b" (Some "Robert") None;
    CloseAccount "acc0000000a";
    TransferCall "acc0000000b" "acc0000000a" 10 "2024-01-01 09:05:00" "2024-01-01 09:05:01" ].

(** ** The tools of [banking_server.py]

    Each tool calls one function of [accounts_db.py] and turns its result
    into the text sent back.  [list_accounts] is left out: the order of its
    lines is the order in which SQLite returns the rows of a SELECT without
    ORDER BY, which the table modelled here does not record. *)

Definition newline : string := String (Ascii.ascii_of_nat 10) "".

(** The currency sign of the replies. *)
Definition rupee : string := "₹".

(** ['-'*40] *)
Definition rule : string := "----------------------------------------".

Module banking_server.
Section server.
(** How an f-string prints an amount. *)
Variable show_amount : Z → string.
(** SQLite's [date()], as for [get_history]. *)
Variable date : string → option string.

(** [None]: [create_account] raised, and so does the tool. *)
Definition open_new_account (holder_name account_type : string)
    (initial_deposit : Z) (uid today now : string) (disk : database)
    : option string * database :=
  let '(account_id, disk) :=
    create_account holder_name account_type initial_deposit uid today now disk in
  ((λ a, "Account created successfully! Your account number is " +:+ a) <$> account_id,
   disk).

Definition close_bank_account (account_id : string) (disk : database)
    : string * database :=
  let '(ok, disk) := close_account account_id disk in
  (if ok then "Account " +:+ account_id +:+ " has been closed successfully."
   else "Could not close account " +:+ account_id +:+
        ". Please ensure the balance is zero.",
   disk).

Definition check_balance (account_id : string) (disk : database) : string :=
  let balance := get_balance account_id disk in
  "The balance for account " +:+ account_id +:+ " is " +:+ rupee +:+
  show_amount balance +:+ ".".

Definition deposit_money (account_id : string) (amt : Z) (descr now : string)
    (disk : database) : string * database :=
  let '(ok, disk) := deposit account_id amt descr now disk in
  (if ok then "Successfully deposited " +:+ rupee +:+ show_amount amt +:+
              " into account " +:+ account_id +:+ "."
   else "Could not deposit into account " +:+ account_id +:+
        ". Please verify the account is active.",
   disk).


Definition transfer_funds (from_account to_account : string) (amt : Z)
    (now1 now2 : string) (disk : database) : string * database :=
  let '(success, disk) := transfer from_account to_account amt now1 now2 disk in
  (if success then "Transferred " +:+ rupee +:+ show_amount amt +:+ " from " +:+
                   from_account +:+ " to " +:+ to_account +:+ "."
   else "Transfer failed. Please check account status and balance.",
   disk).

(** The lines one transaction adds to the reply. *)
Definition history_block (trans : history_row) : string :=
  newline +:+ "Date: " +:+ row_timestamp trans +:+ newline +:+
  "Type: " +:+ row_type trans +:+ newline +:+
  "Amount: " +:+ rupee +:+ show_amount (row_amount trans) +:+ newline +:+
  "Description: " +:+ row_description trans +:+ newline +:+
  "Balance: " +:+ rupee +:+ show_amount (row_balance_after trans) +:+ newline +:+
  rule.

Definition get_transaction_history (account_id : string)
    (start_date end_date : option string) (disk : database) : string :=
  let history := get_history date account_id start_date end_date disk in
  match history with
  | [] => "No transactions found for " +:+ account_id +:+ " in the specified period."
  | _ =>
      foldl (λ result trans, result +:+ history_block trans)
        ("Transaction History for " +:+ account_id +:+ ":" +:+ newline) history
  end.

Definition update_account (account_id : string)
    (new_holder_name new_account_type : option string) (disk : database)
    : string * database :=
  let '(ok, disk) :=
    update_account_details account_id new_holder_name new_account_type disk in
  (if ok then "Account " +:+ account_id +:+ " details updated successfully."
   else "Could not update account " +:+ account_id +:+
        ". Please verify the account exists.",
   disk).
End server.
End banking_server.

(** A printer of amounts for the examples: the digits followed by [".0"],
    as Python prints a whole float of moderate size. *)
Definition show_whole (z : Z) : string := pretty z +:+ ".0".

(** ** The balance operations on the stored type

    The columns [balance], [amount] and [balance_after] are REAL and the
    amounts are Python floats: IEEE 754 doubles.  This module repeats the
    tables, the connection layer, [get_balance], [deposit], [withdraw] and
    [transfer] with [float] where the definitions above have an integer,
    for the property that depends on how sums and differences round.

    NaN stands for NULL: SQLite stores a NaN as NULL, a comparison with NULL
    selects no row, [None + amount] raises in Python, and the NOT NULL
    columns [amount] and [balance_after] refuse a NULL. *)
Module doubles.

Record account := Account {
  holder_name : string;
  account_type : string;
  balance : float;
  status : string;
  created_at : string
}.

Record transaction := Transaction {
  tx_id : nat;
  tx_account_id : string;
  tx_type : string;
  amount : float;
  description : string;
  balance_after : float;
  timestamp : string
}.

Record database := Database {
  accounts : gmap string account;
  transactions : list transaction
}.

Record connection := Connection { pending : option database }.

Definition connect : connection := Connection None.

Definition view (conn : connection) (disk : database) : database :=
  default disk (pending conn).

Definition execute (conn : connection) (disk : database)
    (stmt : database → database) : connection :=
  Connection (Some (stmt (view conn disk))).

Definition begin_transaction (conn : connection) : connection := conn.

Definition commit (conn : connection) (disk : database) : connection * database :=
  (Connection None, view conn disk).

Definition rollback (conn : connection) : connection := Connection None.

Definition close (conn : connection) (disk : database) : database := disk.

(** [SELECT balance FROM accounts WHERE account_id = ?] *)
Definition select_balance (account_id : string) (d : database) : option float :=
  balance <$> accounts d !! account_id.

(** [... WHERE account_id = ? AND status = "active"] *)
Definition select_active_balance (account_id : string) (d : database) : option float :=
  match accounts d !! account_id with
  | Some a => if decide (status a = "active") then Some (balance a) else None
  | None => None
  end.

(** [... WHERE account_id = ? AND status = "active" AND balance >= ?] *)
Definition select_sufficient_balance (account_id : string) (amt : float)
    (d : database) : option float :=
  match accounts d !! account_id with
  | Some a =>
      if decide (status a = "active") then
        if PrimFloat.leb amt (balance a) then Some (balance a) else None
      else None
  | None => None
  end.

Definition set_balance (b : float) (a : account) : account :=
  Account (holder_name a) (account_type a) b (status a) (created_at a).

(** [UPDATE accounts SET balance = ? WHERE account_id = ?] *)
Definition update_balance (b : float) (account_id : string) (d : database) : database :=
  Database (alter (set_balance b) account_id (accounts d)) (transactions d).

(** [INSERT INTO transactions (...) VALUES (...)] *)
Definition insert_transaction (account_id type : string) (amt : float)
    (descr : string) (bal_after : float) (ts : string) (d : database) : database :=
  Database (accounts d)
    (transactions d ++
     [Transaction (S (length (transactions d))) account_id type amt descr bal_after ts]).

(** The INSERT raises when [amount] or [balance_after] would be NULL. *)
Definition violates_not_null (amt bal_after : float) : bool :=
  PrimFloat.is_nan amt || PrimFloat.is_nan bal_after.

(** What a call does: it returns a Boolean or raises. *)
Inductive outcome :=
  | Returns (b : bool)
  | Raises.

Definition get_balance (account_id : string) (disk : database) : float :=
  let conn := connect in
  match select_balance account_id (view conn disk) with
  | Some b => b
  | None => 0%float
  end.

(** [deposit]: a call that raises leaves through the [finally] of [get_db]
    without a commit. *)
Definition deposit (account_id : string) (amt : float) (descr now : string)
    (disk : database) : outcome * database :=
  let conn := connect in
  match select_active_balance account_id (view conn disk) with
  | None => (Returns false, close conn disk)
  | Some b =>
      let new_balance := PrimFloat.add b amt in
      let conn := execute conn disk (update_balance new_balance account_id) in
      if violates_not_null amt new_balance then (Raises, close conn disk)
      else
        let conn := execute conn disk
          (insert_transaction account_id "credit" amt descr new_balance now) in
        let '(conn, disk) := commit conn disk in
        (Returns true, close conn disk)
  end.

Definition withdraw (account_id : string) (amt : float) (descr now : string)
    (disk : database) : outcome * database :=
  let conn := connect in
  match select_sufficient_balance account_id amt (view conn disk) with
  | None => (Returns false, close conn disk)
  | Some b =>
      let new_balance := PrimFloat.sub b amt in
      let conn := execute conn disk (update_balance new_balance account_id) in
      if violates_not_null amt new_balance then (Raises, close conn disk)
      else
        let conn := execute conn disk
          (insert_transaction account_id "debit" amt descr new_balance now) in
        let '(conn, disk) := commit conn disk in
        (Returns true, close conn disk)
  end.

(** [transfer]: an exception of either leg is caught by [except Exception]
    and answered with [False]. *)
Definition transfer (from_acc to_acc : string) (amt : float) (now1 now2 : string)
    (disk : database) : bool * database :=
  let conn := connect in
  let conn := begin_transaction conn in
  match withdraw from_acc amt ("Transfer to " +:+ to_acc) now1 disk with
  | (Raises, disk) => let conn := rollback conn in (false, close conn disk)
  | (Returns false, disk) => let conn := rollback conn in (false, close conn disk)
  | (Returns true, disk) =>
      match deposit to_acc amt ("Transfer from " +:+ from_acc) now2 disk with
      | (Raises, disk) => let conn := rollback conn in (false, close conn disk)
      | (Returns false, disk) => let conn := rollback conn in (false, close conn disk)
      | (Returns true, disk) =>
          let '(conn, disk) := commit conn disk in
          (true, close conn disk)
      end
  end.

(** Two accounts holding 10 and 2^53, and two holding 100 and 20. *)
Definition db_large : database :=
  Database
    (<[ "accB" := Account "Bob" "checking" 9007199254740992%float "active" "2024-01-01" ]>
       {[ "accA" := Account "Alice" "savings" 10%float "active" "2024-01-01" ]}) [].

Definition db_small : database :=
  Database
    (<[ "accB" := Account "Bob" "checking" 20%float "active" "2024-01-01" ]>
       {[ "accA" := Account "Alice" "savings" 100%float "active" "2024-01-01" ]}) [].

End doubles.

(** * Properties *)

(** ** Unfolding the connection layer *)

Ltac unfold_conn :=
  unfold commit, execute, rollback, begin_transaction, close, view, connect; simpl.

Lemma database_eq (d1 d2 : database) :
  accounts d1 = accounts d2 → transactions d1 = transactions d2 → d1 = d2.
Proof. destruct d1, d2; simpl; intros -> ->; reflexivity. Qed.

(** Statements run on a connection reach the file at [commit] and are lost
    at [rollback]; either way they are invisible to the file before. *)
Lemma commit_publishes conn disk stmt :
  (commit (execute conn disk stmt) disk).2 = stmt (view conn disk).
Proof. reflexivity. Qed.

Lemma rollback_discards conn disk stmt :
  view (rollback (execute conn disk stmt)) disk = disk ∧
  (commit (rollback (execute conn disk stmt)) disk).2 = disk.
Proof. split; reflexivity. Qed.

(** A connection on which no statement has run has nothing to roll back or
    to commit: this is the state of the connection [transfer] opens. *)
Lemma idle_connection disk :
  rollback (begin_transaction connect) = connect ∧
  (commit (begin_transaction connect) disk).2 = disk.
Proof. split; reflexivity. Qed.

Lemma select_active_balance_Some id d b :
  select_active_balance id d = Some b ↔
  ∃ a, accounts d !! id = Some a ∧ status a = "active" ∧ balance a = b.
Proof.
  unfold select_active_balance. split.
  - destruct (accounts d !! id) as [a|] eqn:Ha; [|done].
    case_decide; [|done]. intros [= <-]. eauto.
  - intros (a & -> & Hs & <-). by rewrite decide_True.
Qed.

Lemma select_active_balance_None id d :
  select_active_balance id d = None ↔
  accounts d !! id = None ∨ ∃ a, accounts d !! id = Some a ∧ status a ≠ "active".
Proof.
  unfold select_active_balance. split.
  - destruct (accounts d !! id) as [a|] eqn:Ha; [|by left].
    case_decide; [done|]. intros _. right; eauto.
  - intros [->|(a & -> & Hs)]; [done|]. by rewrite decide_False.
Qed.

Lemma select_sufficient_balance_Some id amt d b :
  select_sufficient_balance id amt d = Some b ↔
  ∃ a, accounts d !! id = Some a ∧ status a = "active" ∧ amt ≤ balance a ∧ balance a = b.
Proof.
  unfold select_sufficient_balance. split.
  - destruct (accounts d !! id) as [a|] eqn:Ha; [|done].
    repeat case_decide; try done. intros [= <-]. eauto.
  - intros (a & -> & Hs & Hle & <-). by rewrite !decide_True.
Qed.

Lemma select_sufficient_balance_None id amt d :
  select_sufficient_balance id amt d = None ↔
  accounts d !! id = None ∨
  ∃ a, accounts d !! id = Some a ∧ (status a ≠ "active" ∨ balance a < amt).
Proof.
  unfold select_sufficient_balance. split.
  - destruct (accounts d !! id) as [a|] eqn:Ha; [|by left].
    repeat case_decide; try done; intros _; right; exists a; split; auto.
    right; lia.
  - intros [->|(a & -> & [Hs|Hlt])]; [done| |].
    + by rewrite decide_False.
    + case_decide; [|done]. rewrite decide_False; [done|lia].
Qed.

(** ** What each balance operation leaves in the file *)

Lemma deposit_fails id amt descr now d :
  select_active_balance id d = None → deposit id amt descr now d = (false, d).
Proof. intros H. unfold deposit. unfold_conn. by rewrite H. Qed.

Lemma deposit_succeeds id amt descr now d a :
  accounts d !! id = Some a → status a = "active" →
  deposit id amt descr now d =
    (true,
     Database (alter (set_balance (balance a + amt)) id (accounts d))
       (transactions d ++
        [Transaction (S (length (transactions d))) id "credit" amt descr
           (balance a + amt) now])).
Proof.
  intros Ha Hs. unfold deposit. unfold_conn.
  assert (select_active_balance id d = Some (balance a)) as ->.
  { apply select_active_balance_Some; eauto. }
  reflexivity.
Qed.

Lemma withdraw_fails id amt descr now d :
  select_sufficient_balance id amt d = None → withdraw id amt descr now d = (false, d).
Proof. intros H. unfold withdraw. unfold_conn. by rewrite H. Qed.

Lemma withdraw_succeeds id amt descr now d a :
  accounts d !! id = Some a → status a = "active" → amt ≤ balance a →
  withdraw id amt descr now d =
    (true,
     Database (alter (set_balance (balance a - amt)) id (accounts d))
       (transactions d ++
        [Transaction (S (length (transactions d))) id "debit" amt descr
           (balance a - amt) now])).
Proof.
  intros Ha Hs Hle. unfold withdraw. unfold_conn.
  assert (select_sufficient_balance id amt d = Some (balance a)) as ->.
  { apply select_sufficient_balance_Some; eauto. }
  reflexivity.
Qed.

(** The outcome of [deposit] decides which of the two cases applies. *)
Lemma deposit_cases id amt descr now d :
  (select_active_balance id d = None ∧ deposit id amt descr now d = (false, d)) ∨
  (∃ a, accounts d !! id = Some a ∧ status a = "active" ∧
        deposit id amt descr now d =
          (true,
           Database (alter (set_balance (balance a + amt)) id (accounts d))
             (transactions d ++
              [Transaction (S (length (transactions d))) id "credit" amt descr
                 (balance a + amt) now]))).
Proof.
  destruct (select_active_balance id d) as [b|] eqn:Hsel.
  - right. apply select_active_balance_Some in Hsel as (a & Ha & Hs & _).
    exists a. eauto using deposit_succeeds.
  - left. eauto using deposit_fails.
Qed.

Lemma withdraw_cases id amt descr now d :
  (select_sufficient_balance id amt d = None ∧ withdraw id amt descr now d = (false, d)) ∨
  (∃ a, accounts d !! id = Some a ∧ status a = "active" ∧ amt ≤ balance a ∧
        withdraw id amt descr now d =
          (true,
           Database (alter (set_balance (balance a - amt)) id (accounts d))
             (transactions d ++
              [Transaction (S (length (transactions d))) id "debit" amt descr
                 (balance a - amt) now]))).
Proof.
  destruct (select_sufficient_balance id amt d) as [b|] eqn:Hsel.
  - right. apply select_sufficient_balance_Some in Hsel as (a & Ha & Hs & Hle & _).
    exists a. eauto 6 using withdraw_succeeds.
  - left. eauto using withdraw_fails.
Qed.

(** [transfer] is its two legs run one after the other on the file: the
    outer connection contributes nothing to the result. *)
Lemma transfer_legs from_acc to_acc amt now1 now2 d :
  transfer from_acc to_acc amt now1 now2 d =
    let r1 := withdraw from_acc amt ("Transfer to " +:+ to_acc) now1 d in
    if r1.1 then
      let r2 := deposit to_acc amt ("Transfer from " +:+ from_acc) now2 r1.2 in
      (r2.1, r2.2)
    else (false, r1.2).
Proof.
  unfold transfer. unfold_conn.
  destruct (withdraw _ _ _ _ _) as [[] d1]; simpl; [|done].
  by destruct (deposit _ _ _ _ _) as [[] d2].
Qed.

Lemma get_balance_lookup id d :
  get_balance id d = from_option balance 0 (accounts d !! id).
Proof.
  unfold get_balance, select_balance. unfold_conn. by destruct (accounts d !! id).
Qed.

(** ** Transfers *)

(** A transfer whose withdraw leg fails leaves the file as it was. *)
Lemma transfer_withdraw_leg_fails from_acc to_acc amt now1 now2 d :
  select_sufficient_balance from_acc amt d = None →
  transfer from_acc to_acc amt now1 now2 d = (false, d).
Proof.
  intros H. rewrite transfer_legs.
  by rewrite (withdraw_fails _ _ _ _ _ H).
Qed.

(** A transfer whose deposit leg fails returns [False] with the file the
    withdraw leg committed: the [rollback] runs on the outer connection,
    which holds none of the withdraw's statements. *)
Lemma transfer_deposit_leg_fails from_acc to_acc amt now1 now2 d d1 :
  withdraw from_acc amt ("Transfer to " +:+ to_acc) now1 d = (true, d1) →
  select_active_balance to_acc d1 = None →
  transfer from_acc to_acc amt now1 now2 d = (false, d1).
Proof.
  intros Hw Hd. rewrite transfer_legs, Hw. simpl.
  by rewrite (deposit_fails _ _ _ _ _ Hd).
Qed.

(** C1, evaluated on the code: account [accA] holds 100 and [accX] does not
    exist.  The transfer of 50 returns [False], yet the balance of [accA]
    is 50 afterwards and its history has gained the debit row of the
    withdraw leg.  The claim (a failed transfer leaves both balances and
    both histories as they were) does not hold of the code here. *)
Lemma transfer_failed_deposit_leg_keeps_debit :
  let r := transfer "accA" "accX" 50 "2024-01-02 10:00:00" "2024-01-02 10:00:01"
             db_alice in
  r.1 = false ∧
  get_balance "accA" db_alice = 100 ∧
  get_balance "accA" r.2 = 50 ∧
  transactions_of "accA" db_alice = [] ∧
  transactions_of "accA" r.2 =
    [Transaction 1 "accA" "debit" 50 "Transfer to accX" 50 "2024-01-02 10:00:00"].
Proof. vm_compute. repeat split; reflexivity. Qed.

(** The same with a destination that exists but is closed. *)
Lemma transfer_to_closed_account_keeps_debit :
  let r := transfer "accA" "accB" 50 "2024-01-02 10:00:00" "2024-01-02 10:00:01"
             db_alice_bob in
  r.1 = false ∧
  get_balance "accA" r.2 = 50 ∧
  get_balance "accB" r.2 = 0 ∧
  length (transactions_of "accA" r.2) = 1%nat.
Proof. vm_compute. repeat split; reflexivity. Qed.

Lemma doubles_withdraw_true id amt descr now d d' :
  doubles.withdraw id amt descr now d = (doubles.Returns true, d') →
  ∃ a, doubles.accounts d !! id = Some a ∧
    d' = doubles.Database
           (alter (doubles.set_balance (PrimFloat.sub (doubles.balance a) amt)) id
              (doubles.accounts d))
           (doubles.transactions d ++
            [doubles.Transaction (S (length (doubles.transactions d))) id "debit" amt
               descr (PrimFloat.sub (doubles.balance a) amt) now]).
Proof.
  unfold doubles.withdraw, doubles.select_sufficient_balance, doubles.commit,
    doubles.execute, doubles.close, doubles.view, doubles.connect. simpl.
  destruct (doubles.accounts d !! id) as [a|] eqn:Ha; [|done].
  case_decide; [|done].
  destruct (PrimFloat.leb amt (doubles.balance a)); [|done].
  destruct (doubles.violates_not_null _ _); [done|].
  intros [= <-]. by exists a.
Qed.

Lemma doubles_deposit_true id amt descr now d d' :
  doubles.deposit id amt descr now d = (doubles.Returns true, d') →
  ∃ a, doubles.accounts d !! id = Some a ∧
    d' = doubles.Database
           (alter (doubles.set_balance (PrimFloat.add (doubles.balance a) amt)) id
              (doubles.accounts d))
           (doubles.transactions d ++
            [doubles.Transaction (S (length (doubles.transactions d))) id "credit" amt
               descr (PrimFloat.add (doubles.balance a) amt) now]).
Proof.
  unfold doubles.deposit, doubles.select_active_balance, doubles.commit,
    doubles.execute, doubles.close, doubles.view, doubles.connect. simpl.
  destruct (doubles.accounts d !! id) as [a|] eqn:Ha; [|done].
  case_decide; [|done].
  destruct (doubles.violates_not_null _ _); [done|].
  intros [= <-]. by exists a.
Qed.

Lemma doubles_transfer_true from_acc to_acc amt now1 now2 d d' :
  doubles.transfer from_acc to_acc amt now1 now2 d = (true, d') →
  ∃ d1,
    doubles.withdraw from_acc amt ("Transfer to " +:+ to_acc) now1 d
      = (doubles.Returns true, d1) ∧
    doubles.deposit to_acc amt ("Transfer from " +:+ from_acc) now2 d1
      = (doubles.Returns true, d').
Proof.
  unfold doubles.transfer.
  destruct (doubles.withdraw _ _ _ _ _) as [[[]|] d1]; simpl; try done.
  destruct (doubles.deposit _ _ _ _ _) as [[[]|] d2] eqn:Hd; simpl; try done.
  intros [= <-]. by exists d1.
Qed.

Lemma doubles_get_balance_lookup id d :
  doubles.get_balance id d =
  from_option doubles.balance 0%float (doubles.accounts d !! id).
Proof.
  unfold doubles.get_balance, doubles.select_balance, doubles.view, doubles.connect.
  simpl. by destruct (doubles.accounts d !! id).
Qed.

(** C4, as the code has it: the balances are IEEE doubles.  After a transfer
    between two distinct accounts that returns [True], the balance of the
    source is the floating-point difference of its old balance and the
    amount, the balance of the destination is the floating-point sum of
    its old balance and the amount, and every other account is as it was.
    Each of the two results is rounded once; nothing more is promised of
    the decrease, the increase or the sum of the two balances. *)
Theorem transfer_moves_amount from_acc to_acc amt now1 now2 d d' :
  from_acc ≠ to_acc →
  doubles.transfer from_acc to_acc amt now1 now2 d = (true, d') →
  doubles.get_balance from_acc d' = PrimFloat.sub (doubles.get_balance from_acc d) amt ∧
  doubles.get_balance to_acc d' = PrimFloat.add (doubles.get_balance to_acc d) amt ∧
  (∀ other, other ≠ from_acc → other ≠ to_acc →
     doubles.accounts d' !! other = doubles.accounts d !! other).
Proof.
  intros Hne Ht.
  apply doubles_transfer_true in Ht as (d1 & Hw & Hd).
  apply doubles_withdraw_true in Hw as (a & Ha & ->).
  apply doubles_deposit_true in Hd as (b & Hb & ->). simpl in *.
  rewrite lookup_alter_ne in Hb by done.
  rewrite !doubles_get_balance_lookup. simpl.
  rewrite lookup_alter_ne by done.
  rewrite !lookup_alter_eq, Ha, Hb. simpl.
  rewrite lookup_alter_ne, Hb by done. simpl.
  split; [done|]. split; [done|].
  intros other H1 H2. by rewrite !lookup_alter_ne.
Qed.

Lemma transfer_moves_amount_witness :
  let r := doubles.transfer "accA" "accB" 30%float "2024-01-02 10:00:00"
             "2024-01-02 10:00:01" doubles.db_small in
  r.1 = true ∧
  doubles.get_balance "accA" r.2 = 70%float ∧
  doubles.get_balance "accB" r.2 = 50%float.
Proof.
  destruct (transfer_moves_amount "accA" "accB" 30%float "2024-01-02 10:00:00"
              "2024-01-02 10:00:01" doubles.db_small
              (doubles.transfer "accA" "accB" 30%float "2024-01-02 10:00:00"
                 "2024-01-02 10:00:01" doubles.db_small).2)
    as (H1 & H2 & _); [discriminate | by vm_compute |].
  split; [by vm_compute|]. split.
  - rewrite H1. by vm_compute.
  - rewrite H2. by vm_compute.
Defined.

(** C4 as stated fails on the code: with 10 on [accA] and 2^53 on [accB], a
    transfer of 1 returns [True] and takes 1 off [accA], but the balance of
    [accB] is 2^53 after as before (2^53 + 1 rounds to 2^53): the
    destination has not increased by the amount, and the sum of the two
    balances has changed. *)
Lemma transfer_rounding_counterexample :
  let d := doubles.db_large in
  let r := doubles.transfer "accA" "accB" 1%float "2024-01-02 10:00:00"
             "2024-01-02 10:00:01" d in
  r.1 = true ∧
  doubles.get_balance "accA" d = 10%float ∧
  doubles.get_balance "accB" d = 9007199254740992%float ∧
  doubles.get_balance "accA" r.2 = 9%float ∧
  doubles.get_balance "accB" r.2 = 9007199254740992%float ∧
  PrimFloat.eqb
    (PrimFloat.add (doubles.get_balance "accA" r.2) (doubles.get_balance "accB" r.2))
    (PrimFloat.add (doubles.get_balance "accA" d) (doubles.get_balance "accB" d))
    = false.
Proof. vm_compute. repeat split; reflexivity. Qed.

(** ** Closing an account *)

Lemma set_status_same s a : status a = s → set_status s a = a.
Proof. destruct a; simpl; by intros ->. Qed.

Lemma close_account_zero id a d :
  accounts d !! id = Some a → balance a = 0 →
  close_account id d =
    (true, Database (alter (set_status "closed") id (accounts d)) (transactions d)).
Proof.
  intros Ha Hb. unfold close_account, select_balance, update_rowcount. unfold_conn.
  rewrite Ha. simpl. rewrite Hb. by rewrite decide_False by (intros H; by apply H).
Qed.

(** C5: [close_account] returns [False] and leaves the file untouched when
    the account does not exist or its balance is not zero (so the status of
    an account with a non-zero balance never changes); on an existing
    account with balance zero it returns [True] and the account's status is
    ['closed'] afterwards, while its holder, type, balance and creation
    date, the other accounts and all transactions stay as they were. *)
Theorem close_account_spec id d :
  (accounts d !! id = None → close_account id d = (false, d)) ∧
  (∀ a, accounts d !! id = Some a → balance a ≠ 0 →
     close_account id d = (false, d) ∧
     status <$> accounts (close_account id d).2 !! id = Some (status a)) ∧
  (∀ a, accounts d !! id = Some a → balance a = 0 →
     ∃ d' a', close_account id d = (true, d') ∧
       accounts d' !! id = Some a' ∧
       status a' = "closed" ∧
       holder_name a' = holder_name a ∧ account_type a' = account_type a ∧
       balance a' = balance a ∧ created_at a' = created_at a ∧
       (∀ other, other ≠ id → accounts d' !! other = accounts d !! other) ∧
       transactions d' = transactions d).
Proof.
  split; [|split].
  - intros Ha. unfold close_account, select_balance. unfold_conn. by rewrite Ha.
  - intros a Ha Hb.
    assert (close_account id d = (false, d)) as ->.
    { unfold close_account, select_balance. unfold_conn. rewrite Ha. simpl.
      by rewrite decide_True. }
    simpl. by rewrite Ha.
  - intros a Ha Hb. eexists. exists (set_status "closed" a).
    split; [by eapply close_account_zero|]. simpl.
    split; [by rewrite lookup_alter_eq, Ha|].
    repeat (split; [reflexivity|]).
    split; [|done]. intros other Hne. by rewrite lookup_alter_ne.
Qed.

Lemma close_account_spec_witness :
  close_account "accX" db_alice = (false, db_alice) ∧
  close_account "accA" db_alice = (false, db_alice) ∧
  status <$> accounts db_alice_erin !! "accE" = Some "active" ∧
  (close_account "accE" db_alice_erin).1 = true ∧
  status <$> accounts (close_account "accE" db_alice_erin).2 !! "accE" = Some "closed".
Proof.
  split; [|split; [|split]].
  - apply (proj1 (close_account_spec "accX" db_alice)). reflexivity.
  - apply (proj1 (proj2 (close_account_spec "accA" db_alice)) alice);
      [reflexivity | discriminate].
  - reflexivity.
  - destruct (proj2 (proj2 (close_account_spec "accE" db_alice_erin)) erin)
      as (d' & a' & -> & Ha' & Hs & _); [reflexivity | reflexivity |].
    simpl. rewrite Ha'. simpl. by rewrite Hs.
Defined.

(** C10: on an existing account with balance zero [close_account] returns
    [True] whatever the status was, and the status is closed afterwards;
    when the account was closed already the file is left exactly as it
    was. *)
Theorem close_account_again id a d :
  accounts d !! id = Some a → balance a = 0 →
  (close_account id d).1 = true ∧
  status <$> accounts (close_account id d).2 !! id = Some "closed" ∧
  (status a = "closed" → close_account id d = (true, d)).
Proof.
  intros Ha Hb. rewrite (close_account_zero id a d Ha Hb). simpl.
  split; [done|]. split; [by rewrite lookup_alter_eq, Ha|].
  intros Hs. f_equal. apply database_eq; simpl; [|done].
  apply alter_id. intros x Hx. rewrite Ha in Hx. injection Hx as <-.
  by apply set_status_same.
Qed.

Lemma close_account_again_witness :
  (close_account "accB" db_alice_bob).1 = true ∧
  status <$> accounts (close_account "accB" db_alice_bob).2 !! "accB" = Some "closed" ∧
  close_account "accB" db_alice_bob = (true, db_alice_bob).
Proof.
  destruct (close_account_again "accB" bob_closed db_alice_bob) as (H1 & H2 & H3);
    [reflexivity | reflexivity |].
  split; [exact H1|]. split; [exact H2|]. apply H3. reflexivity.
Defined.

(** ** Opening an account *)

(** C6, as the code has it: [create_account] takes the identifier it draws
    as it comes, without looking it up.  For an initial deposit that is not
    negative: when the identifier is not in the table yet, it returns the
    identifier and stores a new account with the given holder and type, the
    initial deposit as balance and status active, leaving the other
    accounts as they were; with a positive initial deposit it appends
    exactly one transaction, a credit of that amount described as "Initial
    deposit" with [balance_after] equal to the initial deposit, and with a
    zero initial deposit it appends none.  When the identifier is already
    in the table the call raises and the file is left as it was. *)
Theorem create_account_spec holder type init uid today now d :
  0 ≤ init →
  (accounts d !! ("acc" +:+ uid) = None →
     ∃ d', create_account holder type init uid today now d =
             (Some ("acc" +:+ uid), d') ∧
       accounts d' !! ("acc" +:+ uid) = Some (Account holder type init "active" today) ∧
       (∀ other, other ≠ "acc" +:+ uid → accounts d' !! other = accounts d !! other) ∧
       (0 < init →
          transactions d' = transactions d ++
            [Transaction (S (length (transactions d))) ("acc" +:+ uid) "credit" init
               "Initial deposit" init now]) ∧
       (init = 0 → transactions d' = transactions d)) ∧
  (is_Some (accounts d !! ("acc" +:+ uid)) →
     create_account holder type init uid today now d = (None, d)).
Proof.
  intros Hinit. split.
  - intros Hfresh. unfold create_account. unfold_conn. rewrite Hfresh.
    destruct (decide (0 < init)) as [Hpos|Hzero]; simpl;
      (eexists; split; [reflexivity|]); simpl;
      (split; [by rewrite lookup_insert_eq|]);
      (split; [by intros other Hne; rewrite lookup_insert_ne|]).
    + split; [done|lia].
    + split; [done|]. by intros _.
  - intros [a Ha]. unfold create_account. unfold_conn. by rewrite Ha.
Qed.

Lemma create_account_spec_witness :
  (∃ d', create_account "Bob" "checking" 25 "1a2b3c4d" "2024-01-05"
           "2024-01-05 09:30:00" db_alice = (Some "acc1a2b3c4d", d') ∧
     get_balance "acc1a2b3c4d" d' = 25 ∧
     transactions d' =
       [Transaction 1 "acc1a2b3c4d" "credit" 25 "Initial deposit" 25
          "2024-01-05 09:30:00"]) ∧
  create_account "Bob" "checking" 25 "0000000a" "2024-01-05" "2024-01-05 09:30:00"
    scenario_open_alice.2 = (None, scenario_open_alice.2).
Proof.
  split.
  - destruct (create_account_spec "Bob" "checking" 25 "1a2b3c4d" "2024-01-05"
                "2024-01-05 09:30:00" db_alice) as [Hnew _]; [lia|].
    destruct Hnew as (d' & Hc & Ha & _ & Ht & _); [reflexivity|].
    exists d'. split; [exact Hc|]. split.
    + rewrite get_balance_lookup.
      change "acc1a2b3c4d" with ("acc" +:+ "1a2b3c4d"). rewrite Ha. reflexivity.
    + rewrite Ht by lia. reflexivity.
  - apply (create_account_spec "Bob" "checking" 25 "0000000a" "2024-01-05"
             "2024-01-05 09:30:00" scenario_open_alice.2); [lia|].
    vm_compute. by eexists.
Defined.

(** C6 as stated fails on the code: the identifier drawn may be in use.
    After [create_account] has opened [acc0000000a] for Alice, a second call
    that draws the same eight characters creates no account: it raises, and
    the file still holds Alice's account and nothing else. *)
Lemma create_account_collision_counterexample :
  let d := scenario_open_alice.2 in
  let r := create_account "Bob" "checking" 25 "0000000a" "2024-01-02"
             "2024-01-02 09:00:00" d in
  holder_name <$> accounts d !! "acc0000000a" = Some "Alice" ∧
  r.1 = None ∧
  r.2 = d ∧
  holder_name <$> accounts r.2 !! "acc0000000a" = Some "Alice" ∧
  get_balance "acc0000000a" r.2 = 100 ∧
  length (transactions r.2) = 1%nat.
Proof. vm_compute. repeat split; reflexivity. Qed.

(** ** Balances under sequences of deposits and withdrawals *)

Lemma nonneg_balances_get_balance d id : nonneg_balances d → 0 ≤ get_balance id d.
Proof.
  intros H. rewrite get_balance_lookup.
  destruct (accounts d !! id) as [a|] eqn:Ha; simpl; [|done].
  exact (H id a Ha).
Qed.

Lemma nonneg_balances_alter d id b txs :
  nonneg_balances d → 0 ≤ b →
  nonneg_balances (Database (alter (set_balance b) id (accounts d)) txs).
Proof.
  intros H Hb j x. simpl. rewrite lookup_alter_Some.
  intros [(_ & y & _ & ->)|(_ & Hj)]; [done|]. exact (H j x Hj).
Qed.

Lemma deposit_nonneg id amt descr now d :
  0 ≤ amt → nonneg_balances d → nonneg_balances (deposit id amt descr now d).2.
Proof.
  intros Hamt H.
  destruct (deposit_cases id amt descr now d) as [[_ ->]|(a & Ha & _ & ->)];
    simpl; [done|].
  apply nonneg_balances_alter; [done|]. pose proof (H id a Ha). simpl in *. lia.
Qed.

Lemma withdraw_nonneg id amt descr now d :
  nonneg_balances d → nonneg_balances (withdraw id amt descr now d).2.
Proof.
  intros H.
  destruct (withdraw_cases id amt descr now d) as [[_ ->]|(a & Ha & _ & Hle & ->)];
    simpl; [done|].
  apply nonneg_balances_alter; [done|lia].
Qed.

Lemma run_operations_nonneg ops d :
  nonneg_balances d → deposits_nonneg ops → nonneg_balances (run_operations ops d).
Proof.
  unfold run_operations. revert d.
  induction ops as [|o ops IH]; intros d Hd Hops; simpl; [done|].
  inversion Hops as [|? ? Ho Hrest]; subst. apply IH; [|done].
  destruct o; simpl; auto using deposit_nonneg, withdraw_nonneg.
Qed.

Lemma withdraw_overdraft id amt descr now d :
  get_balance id d - amt < 0 → withdraw id amt descr now d = (false, d).
Proof.
  intros Hlt. apply withdraw_fails, select_sufficient_balance_None.
  rewrite get_balance_lookup in Hlt.
  destruct (accounts d !! id) as [a|]; [|by left].
  right. exists a. split; [done|]. right. simpl in Hlt. lia.
Qed.

(** C2, as the code has it: starting from a file in which no balance is
    negative, after every prefix of a sequence of deposits and withdrawals
    whose deposits carry no negative amount the balance of every account is
    at least zero; and a withdrawal that would take the balance below zero
    returns [False] and leaves the file, hence the balance, as it was. *)
Theorem balance_never_negative ops d :
  nonneg_balances d → deposits_nonneg ops →
  (∀ n id, 0 ≤ get_balance id (run_operations (take n ops) d)) ∧
  (∀ id amt descr now d0,
     get_balance id d0 - amt < 0 →
     withdraw id amt descr now d0 = (false, d0) ∧
     get_balance id (withdraw id amt descr now d0).2 = get_balance id d0).
Proof.
  intros Hd Hops. split.
  - intros n id. apply nonneg_balances_get_balance, run_operations_nonneg; [done|].
    by apply Forall_take.
  - intros id amt descr now d0 Hlt.
    by rewrite (withdraw_overdraft id amt descr now d0 Hlt).
Qed.

Lemma balance_never_negative_witness :
  0 ≤ get_balance "accA" (run_operations (take 3 sample_operations) db_alice) ∧
  withdraw "accA" 1000 "oops" "2024-01-02 10:00:01" db_alice = (false, db_alice).
Proof.
  destruct (balance_never_negative sample_operations db_alice) as [H1 H2].
  - apply map_Forall_singleton. simpl. lia.
  - repeat constructor; lia.
  - split; [apply (H1 3%nat "accA")|].
    apply (H2 "accA" 1000 "oops" "2024-01-02 10:00:01" db_alice). vm_compute.
    reflexivity.
Defined.

(** C2 as stated fails on the code: [deposit] takes a negative amount, and a
    single such deposit on a balance of 100 succeeds and leaves -400. *)
Lemma negative_deposit_counterexample :
  let r := deposit "accA" (-500) "Deposit" "2024-01-02 10:00:00" db_alice in
  get_balance "accA" db_alice = 100 ∧
  r.1 = true ∧
  get_balance "accA" r.2 = -400 ∧
  get_balance "accA"
    (run_operations [Deposit "accA" (-500) "Deposit" "2024-01-02 10:00:00"] db_alice) < 0.
Proof. vm_compute. repeat split; reflexivity. Qed.

(** ** The ledger follows the balance *)

Lemma latest_transaction_snoc_eq id m txs t :
  tx_account_id t = id → latest_transaction id (Database m (txs ++ [t])) = Some t.
Proof.
  intros Ht. unfold latest_transaction, transactions_of. simpl.
  rewrite filter_app, filter_cons_True by done. simpl. apply last_snoc.
Qed.

Lemma latest_transaction_snoc_ne id m m' txs t :
  tx_account_id t ≠ id →
  latest_transaction id (Database m (txs ++ [t])) =
  latest_transaction id (Database m' txs).
Proof.
  intros Ht. unfold latest_transaction, transactions_of. simpl.
  rewrite filter_app, filter_cons_False by done. simpl. by rewrite app_nil_r.
Qed.

Lemma deposit_ledger_matches id amt descr now d d' :
  deposit id amt descr now d = (true, d') → ledger_matches id d'.
Proof.
  destruct (deposit_cases id amt descr now d) as [[_ ->]|(a & Ha & _ & ->)];
    [done|]. intros [= <-]. unfold ledger_matches.
  rewrite latest_transaction_snoc_eq by done.
  rewrite get_balance_lookup. simpl. by rewrite lookup_alter_eq, Ha.
Qed.

Lemma withdraw_ledger_matches id amt descr now d d' :
  withdraw id amt descr now d = (true, d') → ledger_matches id d'.
Proof.
  destruct (withdraw_cases id amt descr now d) as [[_ ->]|(a & Ha & _ & _ & ->)];
    [done|]. intros [= <-]. unfold ledger_matches.
  rewrite latest_transaction_snoc_eq by done.
  rewrite get_balance_lookup. simpl. by rewrite lookup_alter_eq, Ha.
Qed.

(** A deposit into another account leaves the match in place. *)
Lemma deposit_other_ledger_matches id other amt descr now d :
  other ≠ id → ledger_matches id d → ledger_matches id (deposit other amt descr now d).2.
Proof.
  intros Hne H.
  destruct (deposit_cases other amt descr now d) as [[_ ->]|(a & Ha & _ & ->)];
    [done|]. simpl. unfold ledger_matches in *.
  rewrite (latest_transaction_snoc_ne id _ (accounts d)) by done.
  rewrite get_balance_lookup in *. simpl. rewrite lookup_alter_ne by done.
  by destruct d.
Qed.

(** C8: after [create_account] with a positive initial deposit, after a
    [deposit] or a [withdraw] that returns [True], and for both accounts of
    a [transfer] that returns [True], the most recent transaction of the
    affected account (the one inserted last) has [balance_after] equal to
    the balance the account now has. *)
Theorem latest_transaction_records_balance :
  (∀ holder type init uid today now d id d',
     0 < init →
     create_account holder type init uid today now d = (Some id, d') →
     ledger_matches id d') ∧
  (∀ id amt descr now d d',
     deposit id amt descr now d = (true, d') → ledger_matches id d') ∧
  (∀ id amt descr now d d',
     withdraw id amt descr now d = (true, d') → ledger_matches id d') ∧
  (∀ from_acc to_acc amt now1 now2 d d',
     transfer from_acc to_acc amt now1 now2 d = (true, d') →
     ledger_matches from_acc d' ∧ ledger_matches to_acc d').
Proof.
  split; [|split; [|split]].
  - intros holder type init uid today now d id d' Hpos.
    unfold create_account. unfold_conn.
    destruct (accounts d !! ("acc" +:+ uid)) eqn:Hfresh; [done|].
    rewrite decide_True by done. simpl. intros [= <- <-].
    unfold ledger_matches, insert_transaction, insert_account. simpl.
    rewrite latest_transaction_snoc_eq by done.
    rewrite get_balance_lookup. simpl. by rewrite lookup_insert_eq.
  - apply deposit_ledger_matches.
  - apply withdraw_ledger_matches.
  - intros from_acc to_acc amt now1 now2 d d'. rewrite transfer_legs.
    destruct (withdraw from_acc amt ("Transfer to " +:+ to_acc) now1 d)
      as [[] d1] eqn:Hw; simpl; [|done].
    destruct (deposit to_acc amt ("Transfer from " +:+ from_acc) now2 d1)
      as [ok d2] eqn:Hd; simpl. intros [= -> <-].
    split; [|by eapply deposit_ledger_matches].
    destruct (decide (to_acc = from_acc)) as [->|Hne];
      [by eapply deposit_ledger_matches|].
    change d2 with (true, d2).2. rewrite <- Hd.
    apply deposit_other_ledger_matches; [done|].
    by eapply withdraw_ledger_matches.
Qed.

Lemma latest_transaction_records_balance_witness :
  ledger_matches "accA"
    (deposit "accA" 50 "bonus" "2024-01-02 10:00:00" db_alice).2 ∧
  ledger_matches "accC"
    (transfer "accA" "accC" 30 "2024-01-02 10:00:00" "2024-01-02 10:00:01"
       db_alice_carol).2.
Proof.
  split.
  - apply (proj1 (proj2 latest_transaction_records_balance)
             "accA" 50 "bonus" "2024-01-02 10:00:00" db_alice).
    vm_compute. reflexivity.
  - apply (proj2 (proj2 (proj2 latest_transaction_records_balance))
             "accA" "accC" 30 "2024-01-02 10:00:00" "2024-01-02 10:00:01"
             db_alice_carol).
    vm_compute. reflexivity.
Defined.

(** ** Updating the details of an account *)

Lemma update_account_details_unfold id hn ty d :
  update_account_details id hn ty d =
    if truthy hn || truthy ty then
      (bool_decide (is_Some (accounts d !! id)),
       Database (alter (updated_details hn ty) id (accounts d)) (transactions d))
    else (true, d).
Proof.
  unfold update_account_details, update_rowcount, updated_details. unfold_conn.
  destruct (truthy hn), (truthy ty); simpl; try reflexivity;
    destruct (accounts d !! id) as [a|]; simpl; f_equal.
Qed.

(** C9: [update_account_details] writes only the fields given (a field is
    given when the argument is a non-empty string, which is what the code
    tests): balance, status, creation date, the fields not given, every
    other account and all transactions stay as they were.  With neither
    field given it returns [True] and the file is untouched.  With at
    least one field given it returns [False] exactly when the account does
    not exist, and then too the file is untouched. *)
Theorem update_account_details_spec id hn ty d :
  let r := update_account_details id hn ty d in
  (truthy hn = false → truthy ty = false → r = (true, d)) ∧
  ((truthy hn || truthy ty) = true → (r.1 = false ↔ accounts d !! id = None)) ∧
  (accounts d !! id = None → r.2 = d) ∧
  transactions r.2 = transactions d ∧
  (∀ other, other ≠ id → accounts r.2 !! other = accounts d !! other) ∧
  (∀ a, accounts d !! id = Some a →
     ∃ a', accounts r.2 !! id = Some a' ∧
       balance a' = balance a ∧ status a' = status a ∧
       created_at a' = created_at a ∧
       holder_name a' = (if truthy hn then default "" hn else holder_name a) ∧
       account_type a' = (if truthy ty then default "" ty else account_type a)).
Proof.
  simpl. rewrite update_account_details_unfold.
  split; [by intros -> ->|].
  destruct (truthy hn || truthy ty) eqn:Hgiven; simpl.
  - split.
    { intros _. rewrite bool_decide_eq_false, <- eq_None_not_Some. done. }
    split.
    { intros Hnone. apply database_eq; simpl; [|done]. by apply alter_id'. }
    split; [done|].
    split; [by intros other Hne; rewrite lookup_alter_ne|].
    intros a Ha. exists (updated_details hn ty a).
    rewrite lookup_alter_eq, Ha. done.
  - apply orb_false_iff in Hgiven as [-> ->].
    split; [done|]. split; [done|]. split; [done|]. split; [done|].
    intros a Ha. exists a. done.
Qed.

Lemma update_account_details_spec_witness :
  update_account_details "accA" None (Some "") db_alice = (true, db_alice) ∧
  (update_account_details "accX" (Some "Zed") None db_alice).1 = false ∧
  (update_account_details "accA" (Some "Alicia") None db_alice).1 = true ∧
  (update_account_details "accA" (Some "Alicia") None db_alice).2
    = Database {[ "accA" := Account "Alicia" "savings" 100 "active" "2024-01-01" ]} [].
Proof.
  split; [|split; [|split]].
  - apply (proj1 (update_account_details_spec "accA" None (Some "") db_alice));
      reflexivity.
  - apply (proj1 (proj2 (update_account_details_spec "accX" (Some "Zed") None db_alice)));
      reflexivity.
  - vm_compute. reflexivity.
  - vm_compute. reflexivity.
Defined.

(** ** Closed accounts *)

Lemma closed_not_active a : status a = "closed" → status a ≠ "active".
Proof. by intros ->. Qed.

(** C3, as the code has it: for an account whose status is closed, every
    [deposit], every [withdraw] and every [transfer] that has it as source
    returns [False] and leaves the whole file as it was; every [transfer]
    that has it as destination returns [False] and leaves the row and the
    transactions of the closed account as they were.
    [update_account_details] does not look at the status: on a closed
    account it returns [True] and writes the holder name and account type
    given, leaving balance, status, creation date and all transactions as
    they were. *)
Theorem closed_account_frozen id a d :
  accounts d !! id = Some a → status a = "closed" →
  (∀ amt descr now, deposit id amt descr now d = (false, d)) ∧
  (∀ amt descr now, withdraw id amt descr now d = (false, d)) ∧
  (∀ to_acc amt now1 now2, transfer id to_acc amt now1 now2 d = (false, d)) ∧
  (∀ from_acc amt now1 now2,
     let r := transfer from_acc id amt now1 now2 d in
     r.1 = false ∧ accounts r.2 !! id = Some a ∧
     transactions_of id r.2 = transactions_of id d) ∧
  (∀ hn ty,
     let r := update_account_details id hn ty d in
     r.1 = true ∧
     accounts r.2 !! id = Some (updated_details hn ty a) ∧
     balance (updated_details hn ty a) = balance a ∧
     status (updated_details hn ty a) = "closed" ∧
     created_at (updated_details hn ty a) = created_at a ∧
     transactions r.2 = transactions d).
Proof.
  intros Ha Hs. pose proof (closed_not_active a Hs) as Hna.
  assert (select_active_balance id d = None) as Hsel.
  { apply select_active_balance_None. right. eauto. }
  assert (∀ amt, select_sufficient_balance id amt d = None) as Hsuf.
  { intros amt. apply select_sufficient_balance_None. right. eauto. }
  split; [intros; by apply deposit_fails|].
  split; [intros; by apply withdraw_fails|].
  split; [intros; by apply transfer_withdraw_leg_fails|].
  split.
  - intros from_acc amt now1 now2. simpl. rewrite transfer_legs.
    destruct (withdraw_cases from_acc amt ("Transfer to " +:+ id) now1 d)
      as [[_ ->]|(b & Hb & Hsb & _ & ->)]; simpl; [done|].
    assert (from_acc ≠ id) as Hne by (intros ->; congruence).
    rewrite deposit_fails.
    + simpl. rewrite lookup_alter_ne by done. split; [done|]. split; [done|].
      unfold transactions_of. simpl.
      rewrite filter_app, filter_cons_False by done. simpl. by rewrite app_nil_r.
    + apply select_active_balance_None. right. exists a. simpl.
      by rewrite lookup_alter_ne.
  - intros hn ty. simpl. rewrite update_account_details_unfold.
    destruct (truthy hn || truthy ty) eqn:Hgiven; simpl.
    + rewrite lookup_alter_eq, Ha. simpl.
      done.
    + apply orb_false_iff in Hgiven as [Hhn Hty].
      unfold updated_details. rewrite Hhn, Hty, Ha. by destruct a.
Qed.

Lemma closed_account_frozen_witness :
  deposit "accB" 1 "x" "2024-01-02 10:00:00" db_alice_bob = (false, db_alice_bob) ∧
  withdraw "accB" 0 "x" "2024-01-02 10:00:00" db_alice_bob = (false, db_alice_bob) ∧
  (transfer "accA" "accB" 10 "2024-01-02 10:00:00" "2024-01-02 10:00:01"
     db_alice_bob).1 = false.
Proof.
  destruct (closed_account_frozen "accB" bob_closed db_alice_bob)
    as (Hd & Hw & _ & Ht & _); [reflexivity | reflexivity |].
  split; [apply Hd|]. split; [apply Hw|]. apply Ht.
Defined.

(** C3 as stated fails on the code: on the closed account [accB] the call
    [update_account_details("accB", "Robert")] returns [True] and the
    holder name is changed. *)
Lemma update_closed_account_counterexample :
  let r := update_account_details "accB" (Some "Robert") None db_alice_bob in
  status <$> accounts db_alice_bob !! "accB" = Some "closed" ∧
  holder_name <$> accounts db_alice_bob !! "accB" = Some "Bob" ∧
  r.1 = true ∧
  holder_name <$> accounts r.2 !! "accB" = Some "Robert".
Proof. vm_compute. repeat split; reflexivity. Qed.

(** ** History queries *)

Global Instance newer_first_total : Total newer_first.
Proof.
  intros t1 t2. unfold newer_first.
  destruct (total String.le (timestamp t1) (timestamp t2)); auto.
Qed.

Global Instance newer_first_trans : Transitive newer_first.
Proof. intros t1 t2 t3 H12 H23. unfold newer_first in *. by etrans. Qed.

Lemma insert_newer_first_Permutation t l : insert_newer_first t l ≡ₚ t :: l.
Proof.
  induction l as [|x l IH]; simpl; [done|].
  case_decide; [done|]. rewrite IH. apply Permutation_swap.
Qed.

Lemma order_by_timestamp_desc_Permutation l : order_by_timestamp_desc l ≡ₚ l.
Proof.
  induction l as [|x l IH]; simpl; [done|].
  by rewrite insert_newer_first_Permutation, IH.
Qed.

Lemma insert_newer_first_sorted t l :
  StronglySorted newer_first l → StronglySorted newer_first (insert_newer_first t l).
Proof.
  induction 1 as [|x l Hl IH Hx]; simpl; [repeat constructor|].
  case_decide as Htx.
  - constructor; [by constructor|]. constructor; [done|].
    eapply Forall_impl; [exact Hx|]. intros y Hxy. by etrans.
  - constructor; [done|]. rewrite insert_newer_first_Permutation.
    constructor; [|done]. by destruct (total newer_first t x).
Qed.

Lemma order_by_timestamp_desc_sorted l :
  StronglySorted newer_first (order_by_timestamp_desc l).
Proof.
  induction l as [|x l IH]; simpl; [constructor|]. by apply insert_newer_first_sorted.
Qed.

(** Rows of the same timestamp keep the order of the table. *)
Lemma order_by_timestamp_desc_ties ts l :
  Forall (λ t, timestamp t = ts) l → order_by_timestamp_desc l = l.
Proof.
  induction 1 as [|x l Hx Hl IH]; simpl; [done|]. rewrite IH.
  destruct Hl as [|y l Hy Hl]; simpl; [done|].
  rewrite decide_True; [done|]. unfold newer_first. by rewrite Hx, Hy.
Qed.

Lemma date_between_in_range date ts lo hi :
  date_between date ts lo hi = true ↔ in_date_range date lo hi ts.
Proof.
  unfold date_between, in_date_range.
  destruct (date ts), (date lo), (date hi); try (split; [done|by intros []]).
  rewrite andb_true_iff, !bool_decide_eq_true. done.
Qed.

Lemma filter_none {A} (P : A → Prop) `{!∀ x, Decision (P x)} (l : list A) :
  (∀ x, x ∈ l → ¬ P x) → filter P l = [].
Proof.
  induction l as [|x l IH]; intros Hl; [done|].
  rewrite filter_cons_False by (apply Hl; left).
  apply IH. intros y Hy. apply Hl. by right.
Qed.

Lemma get_history_none date id s e d :
  (∀ t, t ∈ transactions d → history_where date id s e t = false) →
  get_history date id s e d = [].
Proof.
  intros H. unfold get_history. unfold_conn.
  rewrite filter_none; [done|].
  intros t Ht. rewrite (H t Ht). by intros [].
Qed.

Lemma get_history_Permutation date id s e d :
  get_history date id s e d ≡ₚ
  history_row_of <$> filter (λ t, history_where date id s e t) (transactions d).
Proof.
  unfold get_history. unfold_conn. by rewrite order_by_timestamp_desc_Permutation.
Qed.

Lemma get_history_sorted date id s e d :
  StronglySorted row_newer_first (get_history date id s e d).
Proof.
  unfold get_history. apply (StronglySorted_fmap _ newer_first); [done|].
  apply order_by_timestamp_desc_sorted.
Qed.

(** C7: [get_history] returns the rows most recent first (timestamps never
    increase along the result).  Each row carries the timestamp, type,
    amount, description and [balance_after] of one transaction.  When both
    dates are given (non-empty strings) the result holds exactly the
    transactions of the account whose date lies in the inclusive range from
    [start_date] to [end_date]; when one of them is left out it holds all
    the transactions of the account, without any date condition.  The
    result is the empty list, not an error, when the account does not exist
    (in a file whose transactions all belong to accounts of the table),
    when the account has no transaction, and when none of its transactions
    lies in the range. *)
Theorem get_history_spec date id s e d :
  let h := get_history date id s e d in
  let row := λ t, HistoryRow (timestamp t) (tx_type t) (amount t) (description t)
                    (balance_after t) in
  StronglySorted (λ r1 r2, String.le (row_timestamp r2) (row_timestamp r1)) h ∧
  (truthy s && truthy e = true →
     h ≡ₚ row <$>
            filter (λ t, tx_account_id t = id ∧
                         in_date_range date (default "" s) (default "" e) (timestamp t))
              (transactions d)) ∧
  (truthy s && truthy e = false →
     h ≡ₚ row <$> filter (λ t, tx_account_id t = id) (transactions d)) ∧
  (ledger_references_accounts d → accounts d !! id = None → h = []) ∧
  ((∀ t, t ∈ transactions d → tx_account_id t ≠ id) → h = []) ∧
  (truthy s && truthy e = true →
     (∀ t, t ∈ transactions d → tx_account_id t = id →
        ¬ in_date_range date (default "" s) (default "" e) (timestamp t)) →
     h = []).
Proof.
  simpl. split; [apply get_history_sorted|].
  assert ((∀ t, t ∈ transactions d → tx_account_id t ≠ id) →
          get_history date id s e d = []) as Hnone.
  { intros Hno. apply get_history_none. intros t Ht.
    unfold history_where. apply andb_false_iff. left.
    apply bool_decide_eq_false. by apply Hno. }
  split; [|split; [|split; [|split]]].
  - intros Hboth. rewrite get_history_Permutation.
    erewrite list_filter_iff; [reflexivity|]. intros t. simpl.
    unfold history_where. rewrite Hboth.
    rewrite andb_True, bool_decide_spec, Is_true_true.
    by rewrite date_between_in_range.
  - intros Hone. rewrite get_history_Permutation.
    erewrite list_filter_iff; [reflexivity|]. intros t. simpl.
    unfold history_where. rewrite Hone, andb_True, bool_decide_spec.
    split; [by intros []|done].
  - intros Href Hfresh. apply Hnone. intros t Ht Hid.
    destruct (Href t Ht) as [a Ha]. congruence.
  - exact Hnone.
  - intros Hboth Hout. apply get_history_none. intros t Ht.
    unfold history_where. rewrite Hboth.
    destruct (decide (tx_account_id t = id)) as [Hid|Hid].
    + apply andb_false_iff. right. apply not_true_iff_false.
      rewrite date_between_in_range. by apply Hout.
    + apply andb_false_iff. left. by apply bool_decide_eq_false.
Qed.

(** [get_history] run on a ledger of four rows: without dates, with a range
    of dates, with one date left out, and for an unknown account. *)
Example get_history_examples :
  get_history iso_date "accA" None None db_history =
    [ HistoryRow "2024-02-01 10:30:00" "debit" 50 "rent" 100;
      HistoryRow "2024-01-05 12:00:00" "credit" 50 "bonus" 150;
      HistoryRow "2024-01-01 09:00:00" "credit" 100 "Initial deposit" 100 ] ∧
  get_history iso_date "accA" (Some "2024-01-05") (Some "2024-02-01") db_history =
    [ HistoryRow "2024-02-01 10:30:00" "debit" 50 "rent" 100;
      HistoryRow "2024-01-05 12:00:00" "credit" 50 "bonus" 150 ] ∧
  get_history iso_date "accA" (Some "2024-01-05") None db_history =
    get_history iso_date "accA" None None db_history ∧
  get_history iso_date "accX" None None db_history = [].
Proof. vm_compute. repeat split; reflexivity. Qed.

Lemma get_history_spec_witness :
  StronglySorted (λ r1 r2, String.le (row_timestamp r2) (row_timestamp r1))
    (get_history iso_date "accA" (Some "2024-01-05") (Some "2024-02-01") db_history) ∧
  get_history iso_date "accA" (Some "2024-01-05") (Some "2024-02-01") db_history ≡ₚ
    [ HistoryRow "2024-01-05 12:00:00" "credit" 50 "bonus" 150;
      HistoryRow "2024-02-01 10:30:00" "debit" 50 "rent" 100 ] ∧
  get_history iso_date "accA" (Some "2024-01-05") None db_history ≡ₚ
    [ HistoryRow "2024-01-01 09:00:00" "credit" 100 "Initial deposit" 100;
      HistoryRow "2024-01-05 12:00:00" "credit" 50 "bonus" 150;
      HistoryRow "2024-02-01 10:30:00" "debit" 50 "rent" 100 ] ∧
  get_history iso_date "accX" (Some "2024-01-01") (Some "2024-12-31") db_history = [].
Proof.
  split; [|split; [|split]].
  - apply (proj1 (get_history_spec iso_date "accA" (Some "2024-01-05")
                    (Some "2024-02-01") db_history)).
  - apply (proj1 (proj2 (get_history_spec iso_date "accA" (Some "2024-01-05")
                           (Some "2024-02-01") db_history))).
    reflexivity.
  - apply (proj1 (proj2 (proj2 (get_history_spec iso_date "accA" (Some "2024-01-05")
                                  None db_history)))).
    reflexivity.
  - apply (proj1 (proj2 (proj2 (proj2 (proj2
             (get_history_spec iso_date "accX" (Some "2024-01-01") (Some "2024-12-31")
                db_history)))))).
    apply Forall_forall. repeat constructor; discriminate.
Defined.

(** ** Further properties of the balance operations *)

(** A transfer whose withdraw leg is refused (unknown or inactive source,
    or a balance below the amount) returns [False] and leaves the whole
    file as it was. *)
Theorem transfer_refused_at_source from_acc to_acc amt now1 now2 d :
  (withdraw from_acc amt ("Transfer to " +:+ to_acc) now1 d).1 = false →
  transfer from_acc to_acc amt now1 now2 d = (false, d).
Proof.
  intros Hw. rewrite transfer_legs.
  destruct (withdraw_cases from_acc amt ("Transfer to " +:+ to_acc) now1 d)
    as [[_ Heq]|(a & _ & _ & _ & Heq)]; rewrite Heq in *; simpl in *; done.
Qed.

Lemma transfer_refused_at_source_witness :
  transfer "accA" "accC" 1000 "2024-01-02 10:00:00" "2024-01-02 10:00:01"
    db_alice_carol = (false, db_alice_carol).
Proof.
  apply (transfer_refused_at_source "accA" "accC" 1000 "2024-01-02 10:00:00"
           "2024-01-02 10:00:01" db_alice_carol).
  vm_compute. reflexivity.
Defined.



(** ** The scenarios of the specification, run on the model *)

Example scenarios :
  scenario_open_alice.1 = Some "acc0000000a" ∧
  get_balance "acc0000000a" scenario_open_alice.2 = 100 ∧
  get_history iso_date "acc0000000a" None None scenario_open_alice.2 =
    [HistoryRow "2024-01-01 09:00:00" "credit" 100 "Initial deposit" 100] ∧
  scenario_deposit.1 = true ∧
  get_balance "acc0000000a" scenario_deposit.2 = 150 ∧
  scenario_overdraft.1 = false ∧
  get_balance "acc0000000a" scenario_overdraft.2 = 150 ∧
  scenario_open_bob.1 = Some "acc0000000b" ∧
  scenario_transfer.1 = true ∧
  get_balance "acc0000000a" scenario_transfer.2 = 0 ∧
  get_balance "acc0000000b" scenario_transfer.2 = 150 ∧
  scenario_close.1 = true ∧
  scenario_deposit_closed.1 = false ∧
  scenario_transfer_closed.1 = false ∧
  get_balance "acc0000000b" scenario_transfer_closed.2 = 150.
Proof. vm_compute. repeat split; reflexivity. Qed.

(** ** Calls as sequences of writes *)

Lemma close_account_cases id d :
  close_account id d = (false, d) ∨
  ∃ a, accounts d !! id = Some a ∧ balance a = 0 ∧
       close_account id d =
         (true, Database (alter (set_status "closed") id (accounts d)) (transactions d)).
Proof.
  destruct (accounts d !! id) as [a|] eqn:Ha.
  - destruct (decide (balance a = 0)) as [Hb|Hb].
    + right. exists a. eauto using close_account_zero.
    + left. unfold close_account, select_balance. unfold_conn. rewrite Ha. simpl.
      by rewrite decide_True.
  - left. unfold close_account, select_balance. unfold_conn. by rewrite Ha.
Qed.

Lemma create_account_cases holder type init uid today now d :
  (is_Some (accounts d !! ("acc" +:+ uid)) ∧
   create_account holder type init uid today now d = (None, d)) ∨
  (accounts d !! ("acc" +:+ uid) = None ∧
   create_account holder type init uid today now d =
     (Some ("acc" +:+ uid),
      Database (<["acc" +:+ uid := Account holder type init "active" today]> (accounts d))
        (transactions d ++
         if decide (0 < init)
         then [Transaction (S (length (transactions d))) ("acc" +:+ uid) "credit" init
                 "Initial deposit" init now]
         else []))).
Proof.
  unfold create_account. unfold_conn.
  destruct (accounts d !! ("acc" +:+ uid)) as [a|] eqn:Ha; [left; eauto|].
  right. split; [done|]. case_decide; simpl; [done|]. by rewrite app_nil_r.
Qed.

Section steps.
Context (Pinit Pcredit : Z → Prop).

Lemma deposit_steps id amt descr now d :
  Pcredit amt → rtc (step Pinit Pcredit) d (deposit id amt descr now d).2.
Proof.
  intros Hamt.
  destruct (deposit_cases id amt descr now d) as [[_ ->]|(a & Ha & Hs & ->)];
    simpl; [done|].
  apply rtc_once. by eapply step_credit.
Qed.

Lemma withdraw_steps id amt descr now d : rtc (step Pinit Pcredit) d (withdraw id amt descr now d).2.
Proof.
  destruct (withdraw_cases id amt descr now d) as [[_ ->]|(a & Ha & Hs & Hle & ->)];
    simpl; [done|].
  apply rtc_once. by eapply step_debit.
Qed.

Lemma transfer_steps from_acc to_acc amt now1 now2 d :
  Pcredit amt → rtc (step Pinit Pcredit) d (transfer from_acc to_acc amt now1 now2 d).2.
Proof.
  intros Hamt. rewrite transfer_legs.
  pose proof (withdraw_steps from_acc amt ("Transfer to " +:+ to_acc) now1 d) as Hw.
  destruct (withdraw from_acc amt ("Transfer to " +:+ to_acc) now1 d) as [[] d1];
    simpl in *; [|done].
  etrans; [exact Hw|]. by apply deposit_steps.
Qed.

(** Every call is a sequence of rtc (step Pinit Pcredit) of the kinds [step] lists. *)
Lemma run_call_steps c d : call_ok Pinit Pcredit c → rtc (step Pinit Pcredit) d (run_call c d).
Proof.
  destruct c as [holder type init uid today now|id|id amt descr now|id amt descr now
                 |f t amt now1 now2|id hn ty]; simpl; intros Hok.
  - destruct (create_account_cases holder type init uid today now d)
      as [[_ ->]|[Hfresh ->]]; simpl; [done|].
    apply rtc_once. case_decide.
    + by apply step_create_funded.
    + rewrite app_nil_r. by apply step_create_empty.
  - destruct (close_account_cases id d) as [->|(a & Ha & Hb & ->)]; simpl; [done|].
    apply rtc_once. by eapply step_close.
  - by apply deposit_steps.
  - apply withdraw_steps.
  - by apply transfer_steps.
  - rewrite update_account_details_unfold.
    destruct (truthy hn || truthy ty); simpl; [|done].
    apply rtc_once. apply step_update.
Qed.

Lemma run_calls_steps cs d :
  Forall (call_ok Pinit Pcredit) cs → rtc (step Pinit Pcredit) d (run_calls cs d).
Proof.
  unfold run_calls. revert d.
  induction cs as [|c cs IH]; intros d Hcs; simpl; [done|].
  inversion Hcs as [|? ? Hc Hrest]; subst.
  etrans; [by apply run_call_steps|]. by apply IH.
Qed.

(** What every write keeps, every sequence of calls keeps. *)
Lemma run_calls_invariant (I : database → Prop) cs d :
  (∀ d1 d2, step Pinit Pcredit d1 d2 → I d1 → I d2) →
  Forall (call_ok Pinit Pcredit) cs → I d → I (run_calls cs d).
Proof.
  intros Hstep Hcs Hd.
  induction (run_calls_steps cs d Hcs) as [|d1 d2 d3 H12 _ IH]; eauto.
Qed.
End steps.

Lemma any_call_ok cs : Forall (call_ok any_amount any_amount) cs.
Proof. apply Forall_forall. intros c _. by destruct c. Qed.

(** ** What every write keeps *)

Lemma step_prefix Pi Pc d1 d2 :
  step Pi Pc d1 d2 → transactions d1 `prefix_of` transactions d2.
Proof. destruct 1; simpl; try done; by apply prefix_app_r. Qed.

Lemma ids_consecutive_snoc txs t :
  (∀ i x, txs !! i = Some x → tx_id x = S i) → tx_id t = S (length txs) →
  ∀ i x, (txs ++ [t]) !! i = Some x → tx_id x = S i.
Proof.
  intros Hold Ht i x. rewrite lookup_snoc_Some.
  intros [[_ Hx]|[-> <-]]; [by apply Hold|done].
Qed.

Lemma step_ids_consecutive Pi Pc d1 d2 :
  step Pi Pc d1 d2 → ids_consecutive d1 → ids_consecutive d2.
Proof.
  unfold ids_consecutive.
  destruct 1; simpl; intros Hold; try done; by apply ids_consecutive_snoc.
Qed.

Lemma account_kept_refl a : account_kept a a.
Proof. by split. Qed.

Lemma account_kept_trans a b c : account_kept a b → account_kept b c → account_kept a c.
Proof.
  intros [Hc1 Hs1] [Hc2 Hs2]. split; [congruence|].
  intros Hs. destruct (Hs1 Hs) as [Hsb Hbb]. destruct (Hs2 Hsb) as [Hsc Hbc].
  split; [done|congruence].
Qed.

Lemma alter_account_kept (f : account → account) id (m : gmap string account) j a :
  m !! j = Some a → (m !! id = Some a → account_kept a (f a)) →
  ∃ a', alter f id m !! j = Some a' ∧ account_kept a a'.
Proof.
  intros Hj Hf. destruct (decide (id = j)) as [->|Hne].
  - exists (f a). rewrite lookup_alter_eq, Hj. auto.
  - exists a. rewrite lookup_alter_ne by done. auto using account_kept_refl.
Qed.

Lemma step_account_kept Pi Pc d1 d2 j a :
  step Pi Pc d1 d2 → accounts d1 !! j = Some a →
  ∃ a', accounts d2 !! j = Some a' ∧ account_kept a a'.
Proof.
  destruct 1 as [id b amt descr now d Hb Hs _|id b amt descr now d Hb Hs _
                |id b d Hb Hz|id hn ty d|id holder type init today d Hfresh _ _
                |id holder type init today now d Hfresh _ _]; simpl; intros Hj.
  - apply alter_account_kept; [done|]. intros Ha. split; [done|].
    intros Hc. congruence.
  - apply alter_account_kept; [done|]. intros Ha. split; [done|].
    intros Hc. congruence.
  - apply alter_account_kept; [done|]. by intros Ha.
  - apply alter_account_kept; [done|]. by intros Ha.
  - exists a. rewrite lookup_insert_ne by congruence. auto using account_kept_refl.
  - exists a. rewrite lookup_insert_ne by congruence. auto using account_kept_refl.
Qed.

Lemma map_Forall_alter_account (P : account → Prop) (f : account → account) id
    (m : gmap string account) :
  map_Forall (λ _, P) m → (∀ a, m !! id = Some a → P a → P (f a)) →
  map_Forall (λ _, P) (alter f id m).
Proof.
  intros Hm Hf j x. rewrite lookup_alter_Some.
  intros [(-> & y & Hy & ->)|(_ & Hj)]; [|by eapply Hm].
  apply Hf; [done|]. by eapply Hm.
Qed.

Lemma step_statuses_known Pi Pc d1 d2 :
  step Pi Pc d1 d2 → statuses_known d1 → statuses_known d2.
Proof.
  unfold statuses_known.
  destruct 1; simpl; intros Hm;
    try (apply map_Forall_alter_account; [done|]; simpl; auto; fail);
    apply map_Forall_insert_2; simpl; auto.
Qed.

Lemma step_closed_have_zero_balance Pi Pc d1 d2 :
  step Pi Pc d1 d2 → closed_have_zero_balance d1 → closed_have_zero_balance d2.
Proof.
  unfold closed_have_zero_balance.
  destruct 1 as [id b amt descr now d Hb Hs _|id b amt descr now d Hb Hs _
                |id b d Hb Hz|id hn ty d|id holder type init today d Hfresh _ _
                |id holder type init today now d Hfresh _ _]; simpl; intros Hm.
  - apply map_Forall_alter_account; [done|]. simpl. intros a Ha _ Hc. congruence.
  - apply map_Forall_alter_account; [done|]. simpl. intros a Ha _ Hc. congruence.
  - apply map_Forall_alter_account; [done|]. simpl. intros a Ha _ _. congruence.
  - apply map_Forall_alter_account; [done|]. simpl. auto.
  - apply map_Forall_insert_2; [simpl; discriminate|done].
  - apply map_Forall_insert_2; [simpl; discriminate|done].
Qed.

Lemma step_accounts_stay Pi Pc d1 d2 j :
  step Pi Pc d1 d2 → is_Some (accounts d1 !! j) → is_Some (accounts d2 !! j).
Proof.
  intros Hs [a Ha]. destruct (step_account_kept _ _ _ _ _ _ Hs Ha) as (a' & -> & _).
  by eexists.
Qed.

Lemma step_ledger_references_accounts Pi Pc d1 d2 :
  step Pi Pc d1 d2 → ledger_references_accounts d1 → ledger_references_accounts d2.
Proof.
  intros Hs Href t Ht.
  assert (t ∈ transactions d1 → is_Some (accounts d2 !! tx_account_id t)) as Hold.
  { intros Hin. eapply step_accounts_stay; eauto. }
  destruct Hs; simpl in *; try (by apply Hold);
    apply elem_of_app in Ht as [Hin|Hnew%list_elem_of_singleton];
    try (by apply Hold); subst t; simpl.
  - rewrite lookup_alter_is_Some. by eexists.
  - rewrite lookup_alter_is_Some. by eexists.
  - rewrite lookup_insert_eq. by eexists.
Qed.

Lemma transactions_of_snoc id m m' txs t :
  transactions_of id (Database m (txs ++ [t])) =
  transactions_of id (Database m' txs) ++ (if decide (tx_account_id t = id) then [t] else []).
Proof.
  unfold transactions_of. simpl. by rewrite filter_app.
Qed.

Lemma transactions_of_fresh id d :
  ledger_references_accounts d → accounts d !! id = None → transactions_of id d = [].
Proof.
  intros Href Hfresh. apply filter_none. intros t Ht Hid.
  destruct (Href t Ht) as [a Ha]. congruence.
Qed.

Lemma get_balance_alter_ne f id j m txs txs' :
  id ≠ j →
  get_balance j (Database (alter f id m) txs) = get_balance j (Database m txs').
Proof. intros Hne. rewrite !get_balance_lookup. simpl. by rewrite lookup_alter_ne. Qed.

Lemma get_balance_alter_same f id j m txs txs' :
  (∀ a, balance (f a) = balance a) →
  get_balance j (Database (alter f id m) txs) = get_balance j (Database m txs').
Proof.
  intros Hf. rewrite !get_balance_lookup. simpl.
  destruct (decide (id = j)) as [->|Hne]; [|by rewrite lookup_alter_ne].
  rewrite lookup_alter_eq. destruct (m !! j); simpl; auto.
Qed.

Lemma ledger_matches_frame j d1 d2 :
  transactions_of j d2 = transactions_of j d1 → get_balance j d2 = get_balance j d1 →
  ledger_matches j d1 → ledger_matches j d2.
Proof. unfold ledger_matches, latest_transaction. by intros -> ->. Qed.

Lemma ledger_consistent_frame j d1 d2 :
  transactions_of j d2 = transactions_of j d1 → get_balance j d2 = get_balance j d1 →
  ledger_consistent d1 → transactions_of j d2 ≠ [] → ledger_matches j d2.
Proof.
  intros Ht Hb Hcons Hne. apply (ledger_matches_frame j d1); [done..|].
  apply Hcons. by rewrite <- Ht.
Qed.

(** A row appended for the account whose balance is set to the row's
    [balance_after]. *)
Lemma ledger_consistent_balance_step id b m txs t :
  tx_account_id t = id → balance_after t = b → is_Some (m !! id) →
  ledger_consistent (Database m txs) →
  ledger_consistent (Database (alter (set_balance b) id m) (txs ++ [t])).
Proof.
  intros Hid Hb [a Ha] Hcons j Hne.
  destruct (decide (id = j)) as [<-|Hj].
  - unfold ledger_matches. rewrite latest_transaction_snoc_eq by done.
    rewrite get_balance_lookup. simpl. rewrite lookup_alter_eq, Ha. simpl. by rewrite Hb.
  - apply (ledger_consistent_frame j (Database m txs)); [| |done|done].
    + rewrite (transactions_of_snoc j _ m). rewrite decide_False by congruence.
      by rewrite app_nil_r.
    + by apply get_balance_alter_ne.
Qed.

Lemma ledger_consistent_alter f id m txs :
  (∀ a, balance (f a) = balance a) →
  ledger_consistent (Database m txs) → ledger_consistent (Database (alter f id m) txs).
Proof.
  intros Hf Hcons j Hne.
  apply (ledger_consistent_frame j (Database m txs)); [done| |done|done].
  by apply get_balance_alter_same.
Qed.

Lemma step_ledger_consistent Pi Pc d1 d2 :
  step Pi Pc d1 d2 → ledger_references_accounts d1 →
  ledger_consistent d1 → ledger_consistent d2.
Proof.
  destruct 1 as [id b amt descr now d Hb Hs _|id b amt descr now d Hb Hs _
                |id b d Hb Hz|id hn ty d|id holder type init today d Hfresh _ _
                |id holder type init today now d Hfresh _ _]; intros Href Hcons.
  - destruct d as [m txs]. by apply ledger_consistent_balance_step.
  - destruct d as [m txs]. by apply ledger_consistent_balance_step.
  - destruct d as [m txs]. by apply ledger_consistent_alter.
  - destruct d as [m txs]. by apply ledger_consistent_alter.
  - intros j Hne. destruct (decide (id = j)) as [<-|Hj].
    + exfalso. apply Hne. by apply (transactions_of_fresh id d).
    + apply (ledger_consistent_frame j d); [done| |done|done].
      rewrite !get_balance_lookup. simpl. by rewrite lookup_insert_ne.
  - intros j Hne. destruct (decide (id = j)) as [<-|Hj].
    + unfold ledger_matches. rewrite latest_transaction_snoc_eq by done.
      rewrite get_balance_lookup. simpl. by rewrite lookup_insert_eq.
    + apply (ledger_consistent_frame j d); [| |done|done].
      * rewrite (transactions_of_snoc j _ (accounts d)).
        rewrite decide_False by (simpl; congruence). rewrite app_nil_r. by destruct d.
      * rewrite !get_balance_lookup. simpl. by rewrite lookup_insert_ne.
Qed.

Lemma step_nonneg_balances d1 d2 :
  step nonneg_amount nonneg_amount d1 d2 → nonneg_balances d1 → nonneg_balances d2.
Proof.
  unfold nonneg_balances, nonneg_amount.
  destruct 1 as [id b amt descr now d Hb Hs Ha|id b amt descr now d Hb Hs Hle
                |id b d Hb Hz|id hn ty d|id holder type init today d Hfresh Hz Hi
                |id holder type init today now d Hfresh Hp Hi]; simpl; intros Hm.
  - apply map_Forall_alter_account; [done|]. simpl. intros _ _ _.
    pose proof (Hm id b Hb). simpl in *. lia.
  - apply map_Forall_alter_account; [done|]. simpl. intros _ _ _. lia.
  - apply map_Forall_alter_account; [done|]. simpl. auto.
  - apply map_Forall_alter_account; [done|]. simpl. auto.
  - by apply map_Forall_insert_2.
  - by apply map_Forall_insert_2.
Qed.

(** ** Invariants over every sequence of calls *)

(** The ledger is append-only: whatever calls are made, in whatever order
    and with whatever outcome, the transactions recorded before are an
    initial segment of the transactions recorded after; no row is ever
    changed or removed. *)
Theorem ledger_is_append_only cs d :
  transactions d `prefix_of` transactions (run_calls cs d).
Proof.
  apply (run_calls_invariant any_amount any_amount
           (λ d', transactions d `prefix_of` transactions d'));
    [|apply any_call_ok|done].
  intros d1 d2 Hs H. etrans; [exact H|]. by eapply step_prefix.
Qed.

(** The [id] of a row is its position in the table, counted from one, and
    stays so under every sequence of calls: ids increase in insertion order
    and are never used twice. *)
Theorem transaction_ids_count_rows cs d :
  ids_consecutive d → ids_consecutive (run_calls cs d).
Proof.
  apply (run_calls_invariant any_amount any_amount ids_consecutive);
    [|apply any_call_ok].
  intros d1 d2. apply step_ids_consecutive.
Qed.

Lemma ids_consecutive_empty : ids_consecutive empty_db.
Proof. intros i t H. simpl in H. by rewrite lookup_nil in H. Qed.

Lemma transaction_ids_count_rows_witness :
  ids_consecutive (run_calls sample_calls empty_db) ∧
  tx_id <$> transactions (run_calls sample_calls empty_db) = [1; 2; 3; 4; 5]%nat.
Proof.
  split.
  - apply (transaction_ids_count_rows sample_calls empty_db), ids_consecutive_empty.
  - vm_compute. reflexivity.
Defined.

(** No call deletes an account or changes its creation date, and no call
    reopens a closed account or changes its balance: an account of the
    table is still there after every sequence of calls, with the same
    [created_at], and if it was closed it is still closed with the balance
    it had. *)
Theorem accounts_persist cs d id a :
  accounts d !! id = Some a →
  ∃ a', accounts (run_calls cs d) !! id = Some a' ∧
    created_at a' = created_at a ∧
    (status a = "closed" → status a' = "closed" ∧ balance a' = balance a).
Proof.
  intros Ha.
  apply (run_calls_invariant any_amount any_amount
           (λ d', ∃ a', accounts d' !! id = Some a' ∧ account_kept a a'));
    [|apply any_call_ok|eauto using account_kept_refl].
  intros d1 d2 Hs (a1 & Ha1 & Hk1).
  destruct (step_account_kept _ _ _ _ _ _ Hs Ha1) as (a2 & Ha2 & Hk2).
  eauto using account_kept_trans.
Qed.

Lemma accounts_persist_witness :
  ∃ a', accounts (run_calls
                    [ DepositCall "accB" 5 "x" "2024-01-02 10:00:00";
                      UpdateDetails "accB" (Some "Robert") None;
                      TransferCall "accA" "accB" 10 "2024-01-02 10:00:01"
                        "2024-01-02 10:00:02" ] db_alice_bob) !! "accB" = Some a' ∧
    created_at a' = created_at bob_closed ∧
    (status bob_closed = "closed" → status a' = "closed" ∧ balance a' = balance bob_closed).
Proof. apply accounts_persist. reflexivity. Defined.

(** Under every sequence of calls the status column keeps holding only
    ['active'] or ['closed'], and a closed account keeps having balance
    zero. *)
Theorem account_status_invariants cs d :
  statuses_known d → closed_have_zero_balance d →
  statuses_known (run_calls cs d) ∧ closed_have_zero_balance (run_calls cs d).
Proof.
  intros Hk Hz.
  apply (run_calls_invariant any_amount any_amount
           (λ d', statuses_known d' ∧ closed_have_zero_balance d'));
    [|apply any_call_ok|done].
  intros d1 d2 Hs [H1 H2].
  eauto using step_statuses_known, step_closed_have_zero_balance.
Qed.

Lemma account_status_invariants_witness :
  statuses_known (run_calls sample_calls empty_db) ∧
  closed_have_zero_balance (run_calls sample_calls empty_db).
Proof.
  apply (account_status_invariants sample_calls empty_db); apply map_Forall_empty.
Defined.

(** Every transaction belongs to an account of the table, and stays so
    under every sequence of calls. *)
Theorem ledger_stays_referenced cs d :
  ledger_references_accounts d → ledger_references_accounts (run_calls cs d).
Proof.
  apply (run_calls_invariant any_amount any_amount ledger_references_accounts);
    [|apply any_call_ok].
  intros d1 d2. apply step_ledger_references_accounts.
Qed.

Lemma ledger_references_accounts_empty : ledger_references_accounts empty_db.
Proof. intros t Ht. simpl in Ht. by apply elem_of_nil in Ht. Qed.

Lemma ledger_stays_referenced_witness :
  ledger_references_accounts (run_calls sample_calls empty_db) ∧
  length (transactions (run_calls sample_calls empty_db)) = 5%nat.
Proof.
  split.
  - apply (ledger_stays_referenced sample_calls empty_db),
      ledger_references_accounts_empty.
  - vm_compute. reflexivity.
Defined.

(** In a file whose transactions all belong to accounts of the table, if
    every account that has transactions shows its current balance in the
    most recent one, this is still so after every sequence of calls,
    failed ones and half-done transfers included. *)
Theorem ledger_stays_consistent cs d :
  ledger_references_accounts d → ledger_consistent d →
  ledger_consistent (run_calls cs d).
Proof.
  intros Href Hcons.
  apply (run_calls_invariant any_amount any_amount
           (λ d', ledger_references_accounts d' ∧ ledger_consistent d'));
    [|apply any_call_ok|done].
  intros d1 d2 Hs [H1 H2].
  eauto using step_ledger_references_accounts, step_ledger_consistent.
Qed.

Lemma ledger_consistent_empty : ledger_consistent empty_db.
Proof. intros id Hne. by destruct Hne. Qed.

Lemma ledger_stays_consistent_witness :
  ledger_consistent (run_calls sample_calls empty_db) ∧
  balance_after <$> latest_transaction "acc0000000b" (run_calls sample_calls empty_db)
    = Some 140.
Proof.
  split.
  - apply (ledger_stays_consistent sample_calls empty_db);
      [apply ledger_references_accounts_empty | apply ledger_consistent_empty].
  - vm_compute. reflexivity.
Defined.

Lemma sample_calls_credits_nonneg : credits_nonneg sample_calls.
Proof. repeat constructor; unfold nonneg_amount; simpl; lia. Qed.

(** When no account is opened with a negative initial deposit and no
    deposit or transfer carries a negative amount, no balance ever becomes
    negative, whatever calls are made. *)
Theorem balances_stay_nonneg cs d :
  credits_nonneg cs → nonneg_balances d → nonneg_balances (run_calls cs d).
Proof.
  intros Hcs.
  apply (run_calls_invariant nonneg_amount nonneg_amount nonneg_balances); [|done].
  intros d1 d2. apply step_nonneg_balances.
Qed.

Lemma balances_stay_nonneg_witness :
  nonneg_balances (run_calls sample_calls empty_db) ∧
  get_balance "acc0000000b" (run_calls sample_calls empty_db) = 140.
Proof.
  split.
  - apply (balances_stay_nonneg sample_calls empty_db);
      [apply sample_calls_credits_nonneg | apply map_Forall_empty].
  - vm_compute. reflexivity.
Defined.

(** ** Transfers, case by case *)







(** A transfer that returns [True] appends exactly two rows, in this order:
    a debit of the amount on the source, described "Transfer to" and the
    destination, and a credit of the amount on the destination, described
    "Transfer from" and the source; each carries the balance its account
    has once its leg is done. *)
Theorem transfer_records_two_rows from_acc to_acc amt now1 now2 d d' :
  transfer from_acc to_acc amt now1 now2 d = (true, d') →
  transactions d' = transactions d ++
    [ Transaction (S (length (transactions d))) from_acc "debit" amt
        ("Transfer to " +:+ to_acc) (get_balance from_acc d - amt) now1;
      Transaction (S (S (length (transactions d)))) to_acc "credit" amt
        ("Transfer from " +:+ from_acc) (get_balance to_acc d') now2 ].
Proof.
  rewrite transfer_legs.
  destruct (withdraw_cases from_acc amt ("Transfer to " +:+ to_acc) now1 d)
    as [[_ ->]|(a & Ha & Hsa & Hle & ->)]; simpl; [done|].
  match goal with |- context [deposit _ _ _ _ ?d1] =>
    destruct (deposit_cases to_acc amt ("Transfer from " +:+ from_acc) now2 d1)
      as [[_ ->]|(b & Hb & Hsb & ->)] end; simpl; [done|].
  intros [= <-]. simpl. rewrite <- app_assoc. simpl.
  rewrite !get_balance_lookup. simpl. rewrite Ha, lookup_alter_eq. simpl in Hb.
  rewrite Hb. simpl. rewrite length_app. simpl.
  by replace (length (transactions d) + 1)%nat with (S (length (transactions d))) by lia.
Qed.

Lemma transfer_records_two_rows_witness :
  transactions
    (transfer "accA" "accC" 30 "2024-01-02 10:00:00" "2024-01-02 10:00:01"
       db_alice_carol).2 =
    [ Transaction 1 "accA" "debit" 30 "Transfer to accC" 70 "2024-01-02 10:00:00";
      Transaction 2 "accC" "credit" 30 "Transfer from accA" 50 "2024-01-02 10:00:01" ].
Proof.
  rewrite (transfer_records_two_rows "accA" "accC" 30 "2024-01-02 10:00:00"
             "2024-01-02 10:00:01" db_alice_carol
             (transfer "accA" "accC" 30 "2024-01-02 10:00:00" "2024-01-02 10:00:01"
                db_alice_carol).2); vm_compute; reflexivity.
Defined.



(** ** Opening accounts: the edge cases *)

(** When the identifier drawn is already a key of the table,
    [create_account] raises (the INSERT violates the primary key) and the
    file is left exactly as it was: no account is overwritten and no
    transaction is recorded. *)
Theorem create_account_duplicate_id holder type init uid today now d :
  is_Some (accounts d !! ("acc" +:+ uid)) →
  create_account holder type init uid today now d = (None, d).
Proof.
  intros [a Ha].
  destruct (create_account_cases holder type init uid today now d)
    as [[_ ->]|[Hfresh _]]; [done|congruence].
Qed.

Lemma create_account_duplicate_id_witness :
  create_account "Mallory" "savings" 500 "A" "2024-02-01" "2024-02-01 08:00:00"
    db_alice = (None, db_alice).
Proof. apply create_account_duplicate_id. by eexists. Defined.

(** With an initial deposit that is zero or negative, [create_account]
    stores the account with that balance, negative included, and records no
    transaction for it. *)
Theorem create_account_without_deposit holder type init uid today now d :
  accounts d !! ("acc" +:+ uid) = None → init ≤ 0 →
  let r := create_account holder type init uid today now d in
  r.1 = Some ("acc" +:+ uid) ∧
  get_balance ("acc" +:+ uid) r.2 = init ∧
  transactions r.2 = transactions d.
Proof.
  intros Hfresh Hle. simpl.
  destruct (create_account_cases holder type init uid today now d)
    as [[[a Ha] _]|[_ ->]]; [congruence|]. simpl.
  rewrite get_balance_lookup. simpl. rewrite lookup_insert_eq.
  rewrite decide_False by lia. by rewrite app_nil_r.
Qed.

Lemma create_account_without_deposit_witness :
  let r := create_account "Eve" "savings" (-75) "0000000e" "2024-02-01"
             "2024-02-01 08:00:00" db_alice in
  r.1 = Some "acc0000000e" ∧ get_balance "acc0000000e" r.2 = -75 ∧
  transactions r.2 = [].
Proof.
  apply (create_account_without_deposit "Eve" "savings" (-75) "0000000e" "2024-02-01"
           "2024-02-01 08:00:00" db_alice); [reflexivity | lia].
Defined.

(** ** Composing the balance operations *)

(** Once [close_account] has returned [True] for an account, every
    [deposit], every [withdraw] and every [transfer] out of it returns
    [False] and leaves the file as it is, and closing it again returns
    [True] and changes nothing. *)
Theorem closed_account_refuses_money id d d' :
  close_account id d = (true, d') →
  (∀ amt descr now, deposit id amt descr now d' = (false, d')) ∧
  (∀ amt descr now, withdraw id amt descr now d' = (false, d')) ∧
  (∀ to_acc amt now1 now2, transfer id to_acc amt now1 now2 d' = (false, d')) ∧
  close_account id d' = (true, d').
Proof.
  destruct (close_account_cases id d) as [->|(a & Ha & Hz & ->)]; [done|].
  intros [= <-].
  assert (accounts (Database (alter (set_status "closed") id (accounts d))
                      (transactions d)) !! id = Some (set_status "closed" a)) as Hc.
  { simpl. by rewrite lookup_alter_eq, Ha. }
  assert (∀ amt, select_sufficient_balance id amt
            (Database (alter (set_status "closed") id (accounts d)) (transactions d))
          = None) as Hsuf.
  { intros amt. apply select_sufficient_balance_None. right.
    eexists. split; [exact Hc|]. by left. }
  split; [|split; [|split]].
  - intros. apply deposit_fails, select_active_balance_None. right.
    eexists. split; [exact Hc|]. done.
  - intros. by apply withdraw_fails.
  - intros. by apply transfer_withdraw_leg_fails.
  - rewrite (close_account_zero id _ _ Hc) by done. simpl. f_equal.
    apply database_eq; simpl; [|done].
    rewrite alter_alter_eq. apply alter_ext. intros x _. by destruct x.
Qed.

Lemma closed_account_refuses_money_witness :
  let d' := (close_account "accB" db_alice_bob).2 in
  deposit "accB" 1 "x" "2024-01-02 10:00:00" d' = (false, d') ∧
  close_account "accB" d' = (true, d').
Proof.
  destruct (closed_account_refuses_money "accB" db_alice_bob
              (close_account "accB" db_alice_bob).2) as (H1 & _ & _ & H4).
  - vm_compute. reflexivity.
  - split; [apply H1 | exact H4].
Defined.

(** ** Updating details twice *)

Lemma updated_details_twice hn ty a :
  updated_details hn ty (updated_details hn ty a) = updated_details hn ty a.
Proof. unfold updated_details. simpl. by destruct (truthy hn), (truthy ty). Qed.

(** [update_account_details] is idempotent: a second call with the same
    arguments returns what the first returned and leaves the file as the
    first left it. *)
Theorem update_account_details_twice id hn ty d :
  update_account_details id hn ty (update_account_details id hn ty d).2 =
  update_account_details id hn ty d.
Proof.
  rewrite !update_account_details_unfold.
  destruct (truthy hn || truthy ty) eqn:Hgiven; simpl; [|done].
  f_equal.
  - apply bool_decide_ext. by rewrite lookup_alter_is_Some.
  - apply database_eq; simpl; [|done].
    rewrite alter_alter_eq. apply alter_ext. intros x _. apply updated_details_twice.
Qed.

(** ** Listing the accounts *)

(** [get_user_accounts] lists an identifier exactly when the account is in
    the table, closed accounts included; the entry carries the account's
    holder, type and status, and its balance is what [get_balance]
    returns. *)
Theorem get_user_accounts_agrees id d :
  (is_Some (get_user_accounts d !! id) ↔ is_Some (accounts d !! id)) ∧
  (∀ s, get_user_accounts d !! id = Some s →
     sum_balance s = get_balance id d ∧
     ∃ a, accounts d !! id = Some a ∧
       sum_holder_name s = holder_name a ∧ sum_account_type s = account_type a ∧
       sum_status s = status a).
Proof.
  unfold get_user_accounts. unfold_conn. rewrite lookup_fmap. split.
  - by rewrite fmap_is_Some.
  - intros s Hs. rewrite get_balance_lookup.
    destruct (accounts d !! id) as [a|]; simpl in *; [|done].
    injection Hs as <-. simpl. split; [done|]. by exists a.
Qed.

(** ** Histories *)

Lemma deposit_transactions_of id other amt descr now d :
  id ≠ other →
  transactions_of id (deposit other amt descr now d).2 = transactions_of id d.
Proof.
  intros Hne.
  destruct (deposit_cases other amt descr now d) as [[_ ->]|(a & _ & _ & ->)];
    simpl; [done|].
  rewrite (transactions_of_snoc id _ (accounts d)).
  rewrite decide_False by (simpl; congruence). rewrite app_nil_r. by destruct d.
Qed.

Lemma withdraw_transactions_of id other amt descr now d :
  id ≠ other →
  transactions_of id (withdraw other amt descr now d).2 = transactions_of id d.
Proof.
  intros Hne.
  destruct (withdraw_cases other amt descr now d) as [[_ ->]|(a & _ & _ & _ & ->)];
    simpl; [done|].
  rewrite (transactions_of_snoc id _ (accounts d)).
  rewrite decide_False by (simpl; congruence). rewrite app_nil_r. by destruct d.
Qed.

Lemma run_call_transactions_of id c d :
  ¬ call_touches id c → transactions_of id (run_call c d) = transactions_of id d.
Proof.
  destruct c as [holder type init uid today now|a|a amt descr now|a amt descr now
                 |f t amt now1 now2|a hn ty]; simpl; intros Hno.
  - destruct (create_account_cases holder type init uid today now d)
      as [[_ ->]|[_ ->]]; simpl; [done|].
    unfold transactions_of. simpl. rewrite filter_app.
    case_decide; [rewrite filter_cons_False by (simpl; congruence)|];
      by rewrite filter_nil, app_nil_r.
  - by destruct (close_account_cases a d) as [->|(b & _ & _ & ->)].
  - by apply deposit_transactions_of.
  - by apply withdraw_transactions_of.
  - rewrite transfer_legs.
    pose proof (withdraw_transactions_of id f amt ("Transfer to " +:+ t) now1 d) as Hw.
    destruct (withdraw f amt ("Transfer to " +:+ t) now1 d) as [[] d1]; simpl in *.
    + rewrite deposit_transactions_of by tauto. apply Hw. tauto.
    + apply Hw. tauto.
  - rewrite update_account_details_unfold. by destruct (truthy hn || truthy ty).
Qed.

(** [get_history] reads only the rows of the account asked for. *)
Lemma get_history_transactions_of date id s e d :
  get_history date id s e d =
  history_row_of <$>
    order_by_timestamp_desc
      (filter (λ t, Is_true
                      (if truthy s && truthy e
                       then date_between date (timestamp t) (default "" s) (default "" e)
                       else true))
         (transactions_of id d)).
Proof.
  unfold get_history, transactions_of. unfold_conn. do 2 f_equal.
  rewrite list_filter_filter. apply list_filter_iff. intros t.
  unfold history_where. rewrite andb_True, bool_decide_spec. tauto.
Qed.

(** The history of an account is untouched by calls made for other
    accounts, and by every [close_account] and [update_account_details],
    its own included: after any sequence of such calls [get_history]
    returns what it returned before. *)
Theorem get_history_unaffected date id s e cs d :
  Forall (λ c, ¬ call_touches id c) cs →
  get_history date id s e (run_calls cs d) = get_history date id s e d.
Proof.
  intros Hcs. rewrite !get_history_transactions_of. do 3 f_equal.
  unfold run_calls. revert d.
  induction Hcs as [|c cs Hc _ IH]; intros d; simpl; [done|].
  rewrite IH. by apply run_call_transactions_of.
Qed.

Lemma get_history_unaffected_witness :
  get_history iso_date "accA" None None
    (run_calls [ DepositCall "accC" 5 "gift" "2024-03-01 10:00:00";
                 UpdateDetails "accA" (Some "Alicia") None;
                 CloseAccount "accA" ] db_history)
  = get_history iso_date "accA" None None db_history.
Proof.
  apply get_history_unaffected. repeat constructor; simpl; try tauto; discriminate.
Defined.

(** A range of dates that cannot hold anything gives the empty list, not an
    error: when both dates are given and one of them is not a date for
    SQLite, or the start date is after the end date, [get_history] returns
    no row. *)
Theorem get_history_empty_range date id s e d :
  truthy s && truthy e = true →
  (date (default "" s) = None ∨ date (default "" e) = None ∨
   ∃ a b, date (default "" s) = Some a ∧ date (default "" e) = Some b ∧
          ¬ String.le a b) →
  get_history date id s e d = [].
Proof.
  intros Hboth Hbad. apply get_history_none. intros t _.
  unfold history_where. rewrite Hboth. apply andb_false_iff. right.
  apply not_true_iff_false. rewrite date_between_in_range. unfold in_date_range.
  destruct Hbad as [->|[->|(a & b & -> & -> & Hab)]].
  - destruct (date (timestamp t)); simpl; tauto.
  - destruct (date (timestamp t)), (date (default "" s)); simpl; tauto.
  - destruct (date (timestamp t)); [|tauto]. intros [H1 H2]. apply Hab. by etrans.
Qed.

Lemma get_history_empty_range_witness :
  get_history iso_date "accA" (Some "2024-02-01") (Some "2024-01-01") db_history = [] ∧
  get_history iso_date "accA" (Some "yesterday") (Some "2024-12-31") db_history = [].
Proof.
  split; apply get_history_empty_range; try reflexivity.
  - right. right. exists "2024-02-01", "2024-01-01". repeat split. by vm_compute.
  - left. reflexivity.
Defined.

(** ** The replies of the tools *)

Lemma string_app_assoc (s1 s2 s3 : string) : (s1 +:+ s2) +:+ s3 = s1 +:+ (s2 +:+ s3).
Proof.
  induction s1 as [|c s1 IH]; [reflexivity|].
  change (String c ((s1 +:+ s2) +:+ s3) = String c (s1 +:+ s2 +:+ s3)). by f_equal.
Qed.

Lemma string_app_nil_r (s : string) : s +:+ "" = s.
Proof.
  induction s as [|c s IH]; [reflexivity|].
  change (String c (s +:+ "") = String c s). by f_equal.
Qed.

Lemma foldl_append_prefix {A} (block : A → string) (l : list A) (h : string) :
  ∃ rest, foldl (λ result x, result +:+ block x) h l = h +:+ rest.
Proof.
  revert h. induction l as [|x l IH]; intros h; simpl.
  - exists "". by rewrite string_app_nil_r.
  - destruct (IH (h +:+ block x)) as [rest ->].
    exists (block x +:+ rest). apply string_app_assoc.
Qed.

Lemma get_history_nil_iff date id s e d :
  get_history date id s e d = [] ↔
  ∀ t, t ∈ transactions d → history_where date id s e t = false.
Proof.
  split; [|apply get_history_none].
  intros Hnil t Ht. apply not_true_iff_false. intros Hw.
  pose proof (get_history_Permutation date id s e d) as Hp.
  rewrite Hnil in Hp. symmetry in Hp. apply Permutation_nil_r in Hp.
  apply fmap_nil_inv in Hp.
  apply (filter_nil_not_elem_of _ _ t Hp); [by rewrite Hw|done].
Qed.

(** [close_bank_account] answers that the account has been closed exactly
    in the case where the account exists with balance zero; for an unknown
    account as for a non-zero balance it answers with the same text, which
    asks to ensure the balance is zero, and the file is left as it was. *)
Theorem close_bank_account_reply id d :
  ((∃ a, accounts d !! id = Some a ∧ balance a = 0) →
     (banking_server.close_bank_account id d).1 =
       "Account " +:+ id +:+ " has been closed successfully.") ∧
  (accounts d !! id = None ∨ (∃ a, accounts d !! id = Some a ∧ balance a ≠ 0) →
     banking_server.close_bank_account id d =
       ("Could not close account " +:+ id +:+ ". Please ensure the balance is zero.", d)).
Proof.
  unfold banking_server.close_bank_account. split.
  - intros (a & Ha & Hz). by rewrite (close_account_zero id a d Ha Hz).
  - intros Hbad.
    destruct (close_account_cases id d) as [->|(a & Ha & Hz & _)]; [done|].
    destruct Hbad as [Hnone|(b & Hb & Hnz)]; congruence.
Qed.



(** [update_account] called with no field answers that the details were
    updated, for an unknown account too, and touches nothing; called with
    a field it answers "Could not update ..." exactly when the account does
    not exist. *)
Theorem update_account_reply id hn ty d :
  (truthy hn = false → truthy ty = false →
     banking_server.update_account id hn ty d =
       ("Account " +:+ id +:+ " details updated successfully.", d)) ∧
  ((truthy hn || truthy ty) = true → accounts d !! id = None →
     banking_server.update_account id hn ty d =
       ("Could not update account " +:+ id +:+ ". Please verify the account exists.", d)) ∧
  ((truthy hn || truthy ty) = true → is_Some (accounts d !! id) →
     (banking_server.update_account id hn ty d).1 =
       "Account " +:+ id +:+ " details updated successfully.").
Proof.
  unfold banking_server.update_account. rewrite update_account_details_unfold.
  split; [|split].
  - by intros -> ->.
  - intros -> Hnone. rewrite bool_decide_eq_false_2 by (rewrite Hnone; by intros [? [=]]).
    f_equal. apply database_eq; simpl; [|done]. by apply alter_id'.
  - intros -> Hsome. by rewrite bool_decide_eq_true_2.
Qed.

(** [get_transaction_history] answers "No transactions found ..." exactly
    when no transaction of the file passes the WHERE clause of
    [get_history] (none for this account, or none in the range of dates);
    otherwise its answer starts with the heading "Transaction History for"
    and the account. *)
Theorem get_transaction_history_reply show_amount date id s e d :
  let reply := banking_server.get_transaction_history show_amount date id s e d in
  (reply = "No transactions found for " +:+ id +:+ " in the specified period." ↔
   ∀ t, t ∈ transactions d → history_where date id s e t = false) ∧
  (get_history date id s e d ≠ [] →
   ∃ rest, reply = "Transaction History for " +:+ id +:+ ":" +:+ newline +:+ rest).
Proof.
  simpl. unfold banking_server.get_transaction_history.
  rewrite <- get_history_nil_iff.
  destruct (get_history date id s e d) as [|r rows] eqn:Hh.
  - split; [done|]. by intros [].
  - destruct (foldl_append_prefix (banking_server.history_block show_amount)
                (r :: rows) ("Transaction History for " +:+ id +:+ ":" +:+ newline))
      as [rest Hrest].
    split.
    + rewrite Hrest. simpl. split; [discriminate|discriminate].
    + intros _. exists rest. rewrite Hrest. by rewrite !string_app_assoc.
Qed.

Lemma close_bank_account_reply_witness :
  (banking_server.close_bank_account "accB" db_alice_bob).1 =
    "Account accB has been closed successfully." ∧
  banking_server.close_bank_account "accX" db_alice =
    ("Could not close account accX. Please ensure the balance is zero.", db_alice) ∧
  banking_server.close_bank_account "accA" db_alice =
    ("Could not close account accA. Please ensure the balance is zero.", db_alice).
Proof.
  split; [|split].
  - apply (proj1 (close_bank_account_reply "accB" db_alice_bob)).
    exists bob_closed. by split.
  - apply (proj2 (close_bank_account_reply "accX" db_alice)). by left.
  - apply (proj2 (close_bank_account_reply "accA" db_alice)). right.
    exists alice. by split.
Defined.

Lemma update_account_reply_witness :
  banking_server.update_account "accX" None None db_alice =
    ("Account accX details updated successfully.", db_alice) ∧
  banking_server.update_account "accX" (Some "Zed") None db_alice =
    ("Could not update account accX. Please verify the account exists.", db_alice).
Proof.
  split.
  - by apply (proj1 (update_account_reply "accX" None None db_alice)).
  - by apply (proj1 (proj2 (update_account_reply "accX" (Some "Zed") None db_alice))).
Defined.

(** The tools run on the example files. *)
Example tool_replies :
  banking_server.check_balance show_whole "accA" db_alice =
    "The balance for account accA is ₹100.0." ∧
  banking_server.check_balance show_whole "accX" db_alice =
    "The balance for account accX is ₹0.0." ∧
  (banking_server.deposit_money show_whole "accA" 50 "bonus" "2024-01-02 10:00:00"
     db_alice).1 = "Successfully deposited ₹50.0 into account accA." ∧
  (banking_server.transfer_funds show_whole "accA" "accC" 30 "2024-01-02 10:00:00"
     "2024-01-02 10:00:01" db_alice_carol).1 = "Transferred ₹30.0 from accA to accC." ∧
  banking_server.get_transaction_history show_whole iso_date "accX" None None db_history =
    "No transactions found for accX in the specified period." ∧
  banking_server.get_transaction_history show_whole iso_date "accC" None None db_history =
    "Transaction History for accC:" +:+ newline +:+
    newline +:+ "Date: 2024-01-06 08:00:00" +:+ newline +:+
    "Type: credit" +:+ newline +:+
    "Amount: ₹20.0" +:+ newline +:+
    "Description: Initial deposit" +:+ newline +:+
    "Balance: ₹20.0" +:+ newline +:+
    "----------------------------------------".
Proof. vm_compute. repeat split; reflexivity. Qed.
